(** * sn_simulation: the simulation-execution engine

    A shallow embedding of the engine of [sn_simu_wrapper/sn_simu.py]
    (season scheduling, worker loop, index assignment, incremental writer,
    metadata merge) and of the two light-curve backends
    [sn_simulator/sn_cosmo.py] (spectral model) and [sn_simulator/sn_fast.py]
    (template interpolation).

    Conventions.
    - Python [int] is [Z]; Python and numpy [float] is the binary64
      [float] of the kernel, with its own arithmetic and comparisons.
    - A Python [dict] is a [gmap]; a dict of lists is a [gmap string (list _)].
    - A call that can raise returns a [result]; [Raise e] names the
      exception.
    - Calls into libraries that are not part of the repository (sncosmo,
      the telescope throughputs, the grid generator, [repr] of a float) are
      [Variable]s of the section that uses them. *)

From Stdlib Require Import ZArith List String Ascii Floats Lia.
From Stdlib Require Import DecimalString DecimalZ.
From Stdlib Require Import Permutation.
From stdpp Require Import gmap strings list.

Set Warnings "-inexact-float".

Open Scope Z_scope.

(** ** Python values and exceptions *)

Inductive pyval : Type :=
  | PInt (n : Z)
  | PFloat (x : float)
  | PStr (s : string).

Inductive pyexc : Type :=
  | KeyError
  | NameError
  | TypeError
  | ValueError
  | OverflowError
  | IndexError.

Inductive result (A : Type) : Type :=
  | Ok (a : A)
  | Raise (e : pyexc).

Arguments Ok {A} a.
Arguments Raise {A} e.

#[global] Instance result_ret : MRet result := fun A a => Ok a.
#[global] Instance result_bind : MBind result :=
  fun A B f m => match m with Ok a => f a | Raise e => Raise e end.
#[global] Instance result_fmap : FMap result :=
  fun A B f m => match m with Ok a => Ok (f a) | Raise e => Raise e end.

(** [d[k]] on a dict. *)
Definition getitem {V : Type} (d : gmap string V) (k : string) : result V :=
  match d !! k with
  | Some v => Ok v
  | None => Raise KeyError
  end.

(** [dict(zip(names, vals))]: later pairs win, the shorter list bounds. *)
Fixpoint dict_zip {V : Type} (names : list string) (vals : list V)
  : gmap string V :=
  match names, vals with
  | n :: names', v :: vals' => dict_zip names' vals' ∪ {[ n := v ]}
  | _, _ => ∅
  end.

(** [d.update(e)]: the keys of [e] win. *)
Definition dict_update {V : Type} (d e : gmap string V) : gmap string V :=
  e ∪ d.

(** ** Floats *)

Module PyFloat.

(** [float(n)] for an int [n], rounded to nearest even. *)
Definition of_int (n : Z) : float :=
  SF2Prim (binary_normalize prec emax n 0 false).

(** [int(x)]: truncation toward zero; infinities and NaN raise. *)
Definition to_int (x : float) : result Z :=
  match Prim2SF x with
  | S754_zero _ => Ok 0
  | S754_infinity _ => Raise OverflowError
  | S754_nan => Raise ValueError
  | S754_finite s m e =>
      let v := if 0 <=? e then Z.pos m * 2 ^ e else Z.pos m / 2 ^ (- e) in
      Ok (if s then - v else v)
  end.

Definition two52 : float := 0x1p52%float.

(** C [rint] in the default rounding mode: the nearest integral value,
    ties to even, the sign kept. *)
Definition rint (x : float) : float :=
  if (abs x <? two52)%float then
    let r := ((abs x + two52) - two52)%float in
    if get_sign x then (- r)%float else r
  else x.

(** [np.round(x, 3)] on a float: multiply by [10**3], [rint], divide. *)
Definition round3 (x : float) : float := (rint (x * 1000) / 1000)%float.

End PyFloat.

(** The numeric value of an operand of a float product. *)
Definition as_float (v : pyval) : result float :=
  match v with
  | PFloat x => Ok x
  | PInt n => Ok (PyFloat.of_int n)
  | PStr _ => Raise TypeError
  end.

(** [np.round(v, 3)]: an int is returned as it is. *)
Definition np_round3 (v : pyval) : result pyval :=
  match v with
  | PFloat x => Ok (PFloat (PyFloat.round3 x))
  | PInt n => Ok (PInt n)
  | PStr _ => Raise TypeError
  end.

(** ** Strings: decimal rendering and joining *)

Definition str_of_int (n : Z) : string := NilEmpty.string_of_int (Z.to_int n).

Fixpoint has_char (c : ascii) (s : string) : bool :=
  match s with
  | EmptyString => false
  | String a s' => if Ascii.eqb a c then true else has_char c s'
  end.

(** [sep.join([x] + xs)] for a one-character separator. *)
Fixpoint join (sep : ascii) (x : string) (xs : list string) : string :=
  match xs with
  | [] => x
  | y :: ys => x +:+ String sep (join sep y ys)
  end.

(** ** IndexAssigner: [writeLC] (index part) and [setIndex] *)

Section IndexAssigner.

(** ['{}'.format(x)] of a float: Python's [repr], external. *)
Variable float_repr : float -> string.

Definition py_str (v : pyval) : string :=
  match v with
  | PInt n => str_of_int n
  | PFloat x => float_repr x
  | PStr s => s
  end.

(** [setIndex]: ['{}_{}_{}_{}_{}_{}_{}'.format(...)]. *)
Definition setIndex (healpixID x1 color z daymax season epsilon : pyval)
  : string :=
  join "_" (py_str healpixID)
    [py_str x1; py_str color; py_str z; py_str daymax; py_str season;
     py_str epsilon].

(** [np.int(k * lc.meta[name])] for one perturbation. *)
Definition scaled_epsilon (k : float) (meta : gmap string pyval)
  (name : string) : result Z :=
  v ← getitem meta name;
  x ← as_float v;
  PyFloat.to_int (k * x)%float.

(** Lines 447-450 of [writeLC]: the epsilon code. *)
Definition epsilon_code (meta : gmap string pyval) : result Z :=
  e0 ← scaled_epsilon (1000 * 1e8)%float meta "epsilon_x0";
  e1 ← scaled_epsilon (100 * 1e8)%float meta "epsilon_x1";
  e2 ← scaled_epsilon (10 * 1e8)%float meta "epsilon_color";
  e3 ← scaled_epsilon (1 * 1e8)%float meta "epsilon_daymax";
  Ok (e0 + e1 + e2 + e3).

(** Lines 447-457 of [writeLC]: the storage index of a table's metadata. *)
Definition storage_index (meta : gmap string pyval) (season : pyval)
  : result string :=
  epsilon ← epsilon_code meta;
  healpixID ← getitem meta "healpixID";
  x1 ← getitem meta "x1";
  color ← getitem meta "color";
  z ← getitem meta "z";
  zr ← np_round3 z;
  daymax ← getitem meta "daymax";
  dr ← np_round3 daymax;
  Ok (setIndex healpixID x1 color zr dr season (PInt epsilon)).

End IndexAssigner.

(** A generation parameter as the index sees it: the pixel and season it is
    simulated for, and the physical parameters with their perturbations. *)
Record GenerationParameter : Type := {
  gp_healpixID : Z;
  gp_x1 : float;
  gp_color : float;
  gp_z : float;
  gp_daymax : float;
  gp_season : Z;
  gp_epsilon_x0 : float;
  gp_epsilon_x1 : float;
  gp_epsilon_color : float;
  gp_epsilon_daymax : float
}.

(** The entries of [lc.meta] that [writeLC] reads for the index. *)
Definition index_meta (p : GenerationParameter) : gmap string pyval :=
  dict_zip
    ["healpixID"; "x1"; "color"; "z"; "daymax";
     "epsilon_x0"; "epsilon_x1"; "epsilon_color"; "epsilon_daymax"]%string
    [PInt (gp_healpixID p); PFloat (gp_x1 p); PFloat (gp_color p);
     PFloat (gp_z p); PFloat (gp_daymax p);
     PFloat (gp_epsilon_x0 p); PFloat (gp_epsilon_x1 p);
     PFloat (gp_epsilon_color p); PFloat (gp_epsilon_daymax p)].

Definition StorageIndex (float_repr : float -> string)
  (p : GenerationParameter) : result string :=
  storage_index float_repr (index_meta p) (PInt (gp_season p)).

(** The epsilon code of a parameter, as [writeLC] sums it. *)
Definition gp_epsilon_code (p : GenerationParameter) : result Z :=
  epsilon_code (index_meta p).

(** ** SeasonBatchScheduler: the shard boundaries of [simuSeason] *)

(** [np.linspace(0, nlc, npp+1, dtype='int')]: the points [i * nlc / npp]
    cut to integers, the last one [nlc]. numpy computes the points in
    binary64 before it cuts them; the model divides exactly. What is proved
    of the shards uses only that the points start at 0, end at [nlc] and
    never decrease, which rounding keeps. *)
Definition linspace_int (nlc npp : nat) : list nat :=
  map (fun i => (i * nlc / npp)%nat) (seq 0 (npp + 1)).

(** [l[a:b]] for [0 <= a] and [0 <= b]. *)
Definition slice {A : Type} (a b : nat) (l : list A) : list A :=
  take (b - a) (drop a l).

(** The shards [gen_params[batch[i]:batch[i+1]]] for [i] in [range(npp)]. *)
Definition shards {A : Type} (gen_params : list A) (npp : nat)
  : list (list A) :=
  let batch := linspace_int (length gen_params) npp in
  map (fun i => slice (nth i batch 0%nat) (nth (i + 1) batch 0%nat) gen_params)
    (seq 0 npp).

(** ** Tables, engine state and output files *)

(** An astropy table: its rows and its [meta] dict. [len(t)] is the number
    of rows. *)
Record Table (R : Type) : Type := mkTable {
  rows : list R;
  meta : gmap string pyval
}.

Arguments mkTable {R} rows meta.
Arguments rows {R} t.
Arguments meta {R} t.

(** A worker's metadata accumulator ([meta_lc]) and the season store
    ([sn_meta[iproc]]): field name to list of values. *)
Abbreviation MetaLists := (gmap string (list pyval)).

(** What is stored under one path of an HDF5 file. *)
Inductive Entry (R : Type) : Type :=
  | LCEntry (t : Table R)
  | SummaryEntry (m : MetaLists).

Arguments LCEntry {R} t.
Arguments SummaryEntry {R} m.

(** The output directory: file name to the named entries of the file, in
    the order they were added. *)
Abbreviation Disk R := (gmap string (list (string * Entry R))).

(** [t.write(file, path, append=True)]: the file gains one named entry
    (astropy is external; what it does when the path is already taken is
    not modelled). *)
Definition hdf5_append {R : Type} (d : Disk R) (file path : string)
  (x : Entry R) : Disk R :=
  <[ file := default [] (d !! file) ++ [(path, x)] ]> d.

(** [check_del]: remove the file if it exists. *)
Definition check_del {R : Type} (d : Disk R) (fileName : string) : Disk R :=
  delete fileName d.

(** The attributes of [SNSimulation] that the engine reads and writes. *)
Record Engine : Type := mkEngine {
  outdir : string;
  prodid : string;
  save_status : bool;
  nprocs : nat;
  (** ['sn_fast' in self.simu_config['name']] *)
  sn_fast : bool;
  area : float;
  (** [self.season]: [None] stands for [-1] (every season of the batch). *)
  season : option (list Z);
  fieldname : string;
  fieldid : Z;
  index_hdf5 : Z;
  nprocdict : gmap nat nat;
  simu_out : gmap nat string;
  lc_out : gmap nat string;
  SNID : gmap nat Z;
  sn_meta : gmap nat MetaLists
}.

Definition set_SNID (e : Engine) (v : gmap nat Z) : Engine :=
  mkEngine (outdir e) (prodid e) (save_status e) (nprocs e) (sn_fast e)
    (area e) (season e) (fieldname e) (fieldid e) (index_hdf5 e)
    (nprocdict e) (simu_out e) (lc_out e) v (sn_meta e).

Definition set_sn_meta (e : Engine) (v : gmap nat MetaLists) : Engine :=
  mkEngine (outdir e) (prodid e) (save_status e) (nprocs e) (sn_fast e)
    (area e) (season e) (fieldname e) (fieldid e) (index_hdf5 e)
    (nprocdict e) (simu_out e) (lc_out e) (SNID e) v.

Definition set_index_hdf5 (e : Engine) (v : Z) : Engine :=
  mkEngine (outdir e) (prodid e) (save_status e) (nprocs e) (sn_fast e)
    (area e) (season e) (fieldname e) (fieldid e) v
    (nprocdict e) (simu_out e) (lc_out e) (SNID e) (sn_meta e).

Definition set_field (e : Engine) (name : string) (id : Z) : Engine :=
  mkEngine (outdir e) (prodid e) (save_status e) (nprocs e) (sn_fast e)
    (area e) (season e) name id (index_hdf5 e)
    (nprocdict e) (simu_out e) (lc_out e) (SNID e) (sn_meta e).

Definition set_nprocdict (e : Engine) (v : gmap nat nat) : Engine :=
  mkEngine (outdir e) (prodid e) (save_status e) (nprocs e) (sn_fast e)
    (area e) (season e) (fieldname e) (fieldid e) (index_hdf5 e)
    v (simu_out e) (lc_out e) (SNID e) (sn_meta e).

Definition set_outputs (e : Engine) (so lo : gmap nat string) : Engine :=
  mkEngine (outdir e) (prodid e) (save_status e) (nprocs e) (sn_fast e)
    (area e) (season e) (fieldname e) (fieldid e) (index_hdf5 e)
    (nprocdict e) so lo (SNID e) (sn_meta e).

(** [d[k]] on a dict keyed by the process tag. *)
Definition getitem_nat {V : Type} (d : gmap nat V) (k : nat) : result V :=
  match d !! k with
  | Some v => Ok v
  | None => Raise KeyError
  end.

(** [not d] for a dict. *)
Definition dict_is_empty {V : Type} (d : gmap string V) : bool :=
  bool_decide (dom d = ∅).

(** [for key in add.keys(): acc[key] += add[key]] (and [.extend]): every key
    of [add] must be a key of [acc]. *)
Definition extend_lists (acc add : MetaLists) : result MetaLists :=
  if bool_decide (dom add ⊆ dom acc)
  then Ok (map_imap (fun k l => Some (l ++ default [] (add !! k))) acc)
  else Raise KeyError.

(** ** IncrementalWriter: [prepareSave], [writeLC], [dump] *)

(** [prepareSave]: the two output files of the process tag, removed if they
    exist; the counter seeded at [10**iproc]; the store emptied. *)
Definition prepareSave {R : Type} (e : Engine) (d : Disk R) (iproc : nat)
  : Engine * Disk R :=
  let tag := str_of_int (Z.of_nat iproc) in
  let simu := outdir e +:+ "/Simu_" +:+ prodid e +:+ "_" +:+ tag +:+ ".hdf5" in
  let lc := outdir e +:+ "/LC_" +:+ prodid e +:+ "_" +:+ tag +:+ ".hdf5" in
  let e1 := set_outputs e (<[iproc := simu]> (simu_out e))
                          (<[iproc := lc]> (lc_out e)) in
  let d1 := check_del (check_del d simu) lc in
  let e2 := set_SNID e1 (<[iproc := 10 ^ Z.of_nat iproc]> (SNID e1)) in
  (set_sn_meta e2 (<[iproc := ∅]> (sn_meta e2)), d1).

Definition metanames : list string :=
  ["SNID"; "index_hdf5"; "season"; "fieldname"; "fieldid"; "n_lc_points";
   "area"]%string.

Section Writer.

Context {R : Type}.
Variable float_repr : float -> string.

(** The metadata row of one table: the bookkeeping fields, then
    [metadict.update(lc.meta)]. *)
Definition metadict_of (e : Engine) (snid : Z) (index : string) (seas : Z)
  (lc : Table R) : gmap string pyval :=
  dict_update
    (dict_zip metanames
       [PInt snid; PStr index; PInt seas; PStr (fieldname e);
        PInt (fieldid e); PInt (Z.of_nat (length (rows lc)));
        PFloat (area e)])
    (meta lc).

(** The end of [writeLC]: a fresh accumulator gets one-element lists, a
    non-empty one is extended key by key. *)
Definition extend_meta (meta_lc : MetaLists) (metadict : gmap string pyval)
  : result MetaLists :=
  if dict_is_empty meta_lc
  then Ok ((fun v => [v]) <$> metadict)
  else extend_lists meta_lc ((fun v => [v]) <$> metadict).

Definition writeLC (e : Engine) (d : Disk R) (snid : Z) (lc : Table R)
  (seas : Z) (iproc : nat) (meta_lc : MetaLists)
  : result (Disk R * MetaLists) :=
  index ← storage_index float_repr (meta lc) (PInt seas);
  file ← getitem_nat (lc_out e) iproc;
  let d' := hdf5_append d file ("lc_" +:+ index) (LCEntry lc) in
  meta_lc' ← extend_meta meta_lc (metadict_of e snid index seas lc);
  Ok (d', meta_lc').

(** [dump]: [self.SNID[j] += 1], then [writeLC], for each table in turn. *)
Fixpoint dump (e : Engine) (d : Disk R) (list_lc : list (Table R))
  (seas : Z) (j : nat) (meta_lc : MetaLists)
  : result (Engine * Disk R * MetaLists) :=
  match list_lc with
  | [] => Ok (e, d, meta_lc)
  | lc :: rest =>
      c ← getitem_nat (SNID e) j;
      let e' := set_SNID e (<[j := c + 1]> (SNID e)) in
      r ← writeLC e' d (c + 1) lc seas j meta_lc;
      dump e' r.1 rest seas j r.2
  end.

End Writer.

(** ** Observations *)

(** One survey visit, with the columns the engine and the backends read. *)
Record Obs : Type := mkObs {
  obs_season : Z;
  obs_filter : string;
  obs_mjd : float;
  obs_m5 : float;
  obs_exptime : float;
  obs_nexp : float;
  obs_RA : float;
  obs_Dec : float;
  obs_healpixID : Z;
  obs_pixRA : float;
  obs_pixDec : float
}.

(** [val[-1]] on a string. *)
Fixpoint last_char (s : string) : result ascii :=
  match s with
  | EmptyString => Raise IndexError
  | String a EmptyString => Ok a
  | String _ s' => last_char s'
  end.

(** [run], lines 280-281: the visits of a season whose band name does not
    end in [u]. *)
Fixpoint remove_u (obs_season : list Obs) : result (list Obs) :=
  match obs_season with
  | [] => Ok []
  | o :: rest =>
      c ← last_char (obs_filter o);
      kept ← remove_u rest;
      Ok (if Ascii.eqb c "u" then kept else o :: kept)
  end.

(** [np.unique] of a list of ints: sorted, without repeats. *)
Fixpoint insert_unique (x : Z) (l : list Z) : list Z :=
  match l with
  | [] => [x]
  | y :: l' =>
      if x <? y then x :: y :: l'
      else if x =? y then y :: l'
      else y :: insert_unique x l'
  end.

Definition np_unique (l : list Z) : list Z := foldr insert_unique [] l.

(** [np.unique(a).item()]: the one value of the array. *)
Definition unique_item (l : list Z) : result Z :=
  match np_unique l with
  | [x] => Ok x
  | _ => Raise ValueError
  end.

(** ** WorkerProcess: [simuLoop] *)

Section Worker.

Context {R GenPar : Type}.
Variable float_repr : float -> string.

(** [simuLCs] on one generation parameter (the spectral backend) and on a
    whole shard (the template backend): the backend's [__call__]. *)
Variable simuLCs_one : list Obs -> Z -> GenPar -> result (list (Table R)).
Variable simuLCs_all : list Obs -> Z -> list GenPar -> result (list (Table R)).

(** The [for genpar in gen_params] loop of [simuLoop]: tables are buffered
    and dumped every time the buffer holds 20 or more. *)
Fixpoint simuLoop_each (e : Engine) (d : Disk R) (obs : list Obs) (seas : Z)
  (gen_params : list GenPar) (iproc : nat) (list_lc : list (Table R))
  (meta_lc : MetaLists)
  : result (Engine * Disk R * MetaLists * list (Table R)) :=
  match gen_params with
  | [] => Ok (e, d, meta_lc, list_lc)
  | genpar :: rest =>
      lc ← simuLCs_one obs seas genpar;
      let list_lc := list_lc ++ lc in
      if (20 <=? length list_lc)%nat then
        r ← dump float_repr e d list_lc seas iproc meta_lc;
        simuLoop_each r.1.1 r.1.2 obs seas rest iproc [] r.2
      else
        simuLoop_each e d obs seas rest iproc list_lc meta_lc
  end.

(** [simuLoop]: the worker of shard [j]; its metadata is what it puts on the
    result queue, as [{j: meta_lc}]. *)
Definition simuLoop (e : Engine) (d : Disk R) (obs : list Obs) (seas : Z)
  (gen_params : list GenPar) (iproc : nat)
  : result (Engine * Disk R * MetaLists) :=
  r ← (if sn_fast e
       then
         list_lc ← simuLCs_all obs seas gen_params;
         Ok (e, d, ∅, list_lc)
       else simuLoop_each e d obs seas gen_params iproc [] ∅);
  let '(e1, d1, meta_lc, list_lc) := r in
  if (0 <? length list_lc)%nat
  then dump float_repr e1 d1 list_lc seas iproc meta_lc
  else Ok (e1, d1, meta_lc).

End Worker.

(** ** Fan-in: the result queue and the merge of [simuSeason] *)

(** [resultdict.update(result_queue.get())], once per message received. *)
Definition collect (messages : list (nat * MetaLists))
  : gmap nat MetaLists :=
  foldl (fun rd m => <[ m.1 := m.2 ]> rd) ∅ messages.

(** The body of the merge loop for one worker result. *)
Definition merge_step (store metadict : MetaLists) : result MetaLists :=
  if dict_is_empty store then Ok metadict else extend_lists store metadict.

(** [simuSeason], lines 402-409: for [j] in turn, [resultdict[j]] is merged
    into [self.sn_meta[iproc]]. *)
Fixpoint merge_results (e : Engine) (iproc : nat)
  (resultdict : gmap nat MetaLists) (js : list nat) : result Engine :=
  match js with
  | [] => Ok e
  | j :: rest =>
      metadict ← getitem_nat resultdict j;
      store ← getitem_nat (sn_meta e) iproc;
      store' ← merge_step store metadict;
      merge_results (set_sn_meta e (<[iproc := store']> (sn_meta e))) iproc
        resultdict rest
  end.

(** ** The season loop: [simuSeason], [save_metadata], [run] *)

Section Season.

Context {R GenPar : Type}.
Variable float_repr : float -> string.
Variable simuLCs_one : list Obs -> Z -> GenPar -> result (list (Table R)).
Variable simuLCs_all : list Obs -> Z -> list GenPar -> result (list (Table R)).

(** [self.gen_par.Params(obs)]: the generation grid, or [None]. *)
Variable Params : list Obs -> option (list GenPar).

(** The order in which the workers' messages reach the parent. *)
Variable arrival : list (nat * MetaLists) -> list (nat * MetaLists).

(** [seasoncalc] and the optional coaddition stacker. *)
Variable seasoncalc : list Obs -> list Obs.
Variable stacker : option (list Obs -> list Obs).

(** The worker processes of one season. Each starts from a copy of the
    parent's attributes, so what it does to its own copy is lost; the files
    are shared. The processes run side by side; the model runs them one
    after the other, in shard order. A worker that raises ends its process
    and leaves the parent waiting; the model ends with the exception. *)
Fixpoint spawn (e : Engine) (d : Disk R) (obs : list Obs) (seas : Z)
  (parts : list (list GenPar)) (iproc : nat) (i : nat)
  : result (Disk R * list (nat * MetaLists)) :=
  match parts with
  | [] => Ok (d, [])
  | part :: rest =>
      r ← simuLoop float_repr simuLCs_one simuLCs_all e d obs seas part iproc;
      q ← spawn e r.1.2 obs seas rest iproc (S i);
      Ok (q.1, (i, r.2) :: q.2)
  end.

Definition simuSeason (e : Engine) (d : Disk R) (obs : list Obs) (seas : Z)
  (iproc : nat) : result (Engine * Disk R) :=
  match Params obs with
  | None => Ok (e, d)
  | Some gen_params =>
      let npp := if sn_fast e then 1%nat else nprocs e in
      q ← spawn e d obs seas (shards gen_params npp) iproc 0;
      let resultdict := collect (arrival q.2) in
      e' ← merge_results e iproc resultdict (seq 0 npp);
      Ok (e', q.1)
  end.

(** One turn of the [for seas in seasons] loop of [run]. *)
Definition run_season (e : Engine) (d : Disk R) (obs : list Obs) (seas : Z)
  (iproc : nat) : result (Engine * Disk R) :=
  let e1 := set_index_hdf5 e (index_hdf5 e + 10000 * (seas - 1)) in
  let obs_season := filter (fun o => obs_season o = seas) obs in
  kept ← remove_u obs_season;
  if (5 <=? length kept)%nat
  then simuSeason e1 d kept seas iproc
  else Ok (e1, d).

Fixpoint run_seasons (e : Engine) (d : Disk R) (obs : list Obs)
  (seasons : list Z) (iproc : nat) : result (Engine * Disk R) :=
  match seasons with
  | [] => Ok (e, d)
  | seas :: rest =>
      r ← run_season e d obs seas iproc;
      run_seasons r.1 r.2 obs rest iproc
  end.

(** [save_metadata]: every non-empty store is written as one summary
    record-set to the summary file of its process tag. *)
Definition save_metadata (e : Engine) (d : Disk R) (isav : Z)
  : result (Disk R) :=
  foldr
    (fun kv acc =>
       d' ← acc;
       if dict_is_empty kv.2 then Ok d'
       else
         file ← getitem_nat (simu_out e) kv.1;
         Ok (hdf5_append d' file ("summary_" +:+ str_of_int isav)
               (SummaryEntry kv.2)))
    (Ok d) (map_to_list (sn_meta e)).

(** [run] for a batch that carries its pixel ([slicePoint] is [None]);
    [iproc] is the process tag read from the batch. *)
Definition run (e : Engine) (d : Disk R) (obs : list Obs) (iproc : nat)
  : result (Engine * Disk R) :=
  let '(e1, d1) :=
    match nprocdict e !! iproc with
    | Some _ => (e, d)
    | None =>
        let e0 := set_nprocdict e (<[iproc := iproc]> (nprocdict e)) in
        if save_status e0 then prepareSave e0 d iproc else (e0, d)
    end in
  let obs := seasoncalc obs in
  let obs := match stacker with Some st => st obs | None => obs end in
  let e2 := set_field e1 "unknown" 0 in
  let seasons :=
    match season e2 with
    | None => np_unique (map obs_season obs)
    | Some l => l
    end in
  r ← run_seasons e2 d1 obs seasons iproc;
  isav ← unique_item (map obs_healpixID obs);
  d3 ← save_metadata r.1 r.2 isav;
  Ok (set_sn_meta r.1 (<[iproc := ∅]> (sn_meta r.1)), d3).

End Season.

(** ** SimulationBackend, spectral variant: [sn_cosmo.SN] *)

(** [np.unique(a)[0]]: the smallest value. *)
Definition unique_first (l : list Z) : result Z :=
  match np_unique l with
  | [] => Raise IndexError
  | x :: _ => Ok x
  end.

Definition unique_first_float (l : list float) : result float :=
  match l with
  | [] => Raise IndexError
  | x :: rest => Ok (foldl (fun m y => if (y <? m)%float then y else m) x rest)
  end.

(** [a.sort()] on times: ascending. *)
Fixpoint insert_sorted (x : float) (l : list float) : list float :=
  match l with
  | [] => [x]
  | y :: l' => if (x <=? y)%float then x :: y :: l' else y :: insert_sorted x l'
  end.

Definition sort_floats (l : list float) : list float :=
  foldr insert_sorted [] l.

(** The attributes of one [sn_cosmo.SN] object: the supernova's parameters
    and what [__init__] derives from them. *)
Record CosmoSN : Type := mkCosmoSN {
  sn_SNID : Z;
  sn_z : float;
  sn_x1 : float;
  sn_color : float;
  sn_daymax : float;
  sn_min_rf_phase : float;
  sn_max_rf_phase : float;
  sn_blue_cutoff : float;
  sn_red_cutoff : float;
  sn_epsilon_x0 : float;
  sn_epsilon_x1 : float;
  sn_epsilon_color : float;
  sn_epsilon_daymax : float;
  sn_X0 : float;
  sn_dL : float;
  sn_area : float
}.

(** The pixel of a batch: [pix] in [__call__]. *)
Record Pix : Type := mkPix {
  pix_healpixID : Z;
  pix_pixRA : float;
  pix_pixDec : float
}.

Definition names_meta : list string :=
  ["SNID"; "RA"; "Dec"; "x0"; "epsilon_x0"; "x1"; "epsilon_x1";
   "color"; "epsilon_color"; "daymax"; "epsilon_daymax"; "z"; "survey_area";
   "healpixID"; "pixRA"; "pixDec"; "season"; "dL"; "ptime"; "status"]%string.

(** [SN.metadata]. *)
Definition metadata (sn : CosmoSN) (ra dec : float) (pix : Pix)
  (area : float) (seas : Z) (ptime : float) (status : Z)
  : gmap string pyval :=
  dict_zip names_meta
    [PInt (sn_SNID sn); PFloat ra; PFloat dec;
     PFloat (sn_X0 sn); PFloat (sn_epsilon_x0 sn);
     PFloat (sn_x1 sn); PFloat (sn_epsilon_x1 sn);
     PFloat (sn_color sn); PFloat (sn_epsilon_color sn);
     PFloat (sn_daymax sn); PFloat (sn_epsilon_daymax sn);
     PFloat (sn_z sn); PFloat area;
     PInt (pix_healpixID pix); PFloat (pix_pixRA pix); PFloat (pix_pixDec pix);
     PInt seas; PFloat (sn_dL sn); PFloat ptime; PInt status].

(** [SN.nosim]: a table with no row and the metadata. *)
Definition nosim {R : Type} (sn : CosmoSN) (ra dec : float) (pix : Pix)
  (area : float) (seas : Z) (ptime : float) (status : Z) : Table R :=
  mkTable [] (metadata sn ra dec pix area seas ptime status).

(** A row of [lcdf = pd.DataFrame(obs[outvals])]. *)
Record LcdfRow : Type := mkLcdfRow {
  lc_m5 : float;
  lc_mjd : float;
  lc_exptime : float;
  lc_nexp : float;
  lc_filter : string
}.

Definition outvals (o : Obs) : LcdfRow :=
  mkLcdfRow (obs_m5 o) (obs_mjd o) (obs_exptime o) (obs_nexp o) (obs_filter o).

(** A row of [lcdf] once the flux and the magnitude are in. *)
Record FluxRow : Type := mkFluxRow {
  fr_row : LcdfRow;
  fr_flux : float;
  fr_mag : float
}.

(** Line 292: [int_fluxes[int_fluxes < 0.] = 1.e-5]. *)
Definition clamp_flux (f : float) : float :=
  if (f <? 0)%float then 1e-5%float else f.

(** The argument of the logarithm on line 319. *)
Definition mag_arg (flux : float) : float := (flux / 3631.0)%float.

Section Cosmo.

(** The row of the light curve table. *)
Context {R : Type}.

(** One spectrum, as [self.SN.flux] returns it for one epoch. *)
Context {Spectrum : Type}.

Variable np_mean : list float -> float.
Variable log10 : float -> float.

(** [SN_Object.cutoff]: the visits inside the phase and wavelength window. *)
Variable cutoff :
  list Obs -> float -> float -> float -> float -> float -> float -> list Obs.

(** [10. * self.SN.flux(mjd, self.wave)] for one epoch, and
    [Sed.calcFlux] through the throughput of a band. *)
Variable SN_flux : CosmoSN -> float -> Spectrum.
Variable calcFlux : Spectrum -> string -> float.

(** Lines 326-389: signal-to-noise, errors, interpolated gamma, phase,
    renaming; photUtils, the telescope tables and pandas' grouping. *)
Variable photometry : CosmoSN -> list FluxRow -> list R.

(** The processing time the timer reports. *)
Variable ptime : float.

(** Line 319: the magnitude of a flux in Jy. *)
Definition magnitude (flux : float) : float :=
  (-2.5 * log10 (mag_arg flux))%float.

(** Lines 270-294: the integrated fluxes, epoch [i] of the time-ordered
    batch through the band of row [i] of [lcdf], negative ones replaced. *)
Definition int_fluxes (sn : CosmoSN) (sorted_mjd : list float)
  (lcdf : list LcdfRow) : list float :=
  map clamp_flux
    (zip_with (fun t r => calcFlux (SN_flux sn t) (lc_filter r))
       sorted_mjd lcdf).

(** [sn_cosmo.SN.__call__], for a batch that has the columns [healpixID],
    [pixRA] and [pixDec]; the display of the light curve and the prints are
    left out. *)
Definition cosmo_call (sn : CosmoSN) (obs : list Obs)
  : result (list (Table R)) :=
  let ra := np_mean (map obs_RA obs) in
  let dec := np_mean (map obs_Dec obs) in
  let area := sn_area sn in
  seas ← unique_first (map obs_season obs);
  hp ← unique_first (map obs_healpixID obs);
  pra ← unique_first_float (map obs_pixRA obs);
  pdec ← unique_first_float (map obs_pixDec obs);
  let pix := mkPix hp pra pdec in
  let obs := cutoff obs (sn_daymax sn) (sn_z sn) (sn_min_rf_phase sn)
               (sn_max_rf_phase sn) (sn_blue_cutoff sn) (sn_red_cutoff sn) in
  let lcdf := map outvals obs in
  if (length lcdf =? 0)%nat then
    Ok [nosim sn ra dec pix area seas ptime (-1)]
  else if (length obs =? 0)%nat then
    (* [return None, metadata]: the name [metadata] is not bound *)
    Raise NameError
  else
    let sorted_mjd := sort_floats (map obs_mjd obs) in
    let fluxes := int_fluxes sn sorted_mjd lcdf in
    let lcdf := zip_with (fun r f => (r, f)) lcdf fluxes in
    if (length lcdf =? 0)%nat then
      Ok [nosim sn ra dec pix area seas ptime (-1)]
    else
      let lcdf := map (fun r => mkFluxRow r.1 r.2 (magnitude r.2)) lcdf in
      Ok [mkTable (photometry sn lcdf)
            (metadata sn ra dec pix area seas ptime 1)].

End Cosmo.

(** ** SimulationBackend, template variant: [sn_fast.SN] *)

(** [np.unique(a).item()] on floats. *)
Definition unique_item_float (l : list float) : result float :=
  match l with
  | [] => Raise ValueError
  | x :: rest =>
      if forallb (fun y => (x =? y)%float) rest then Ok x
      else Raise ValueError
  end.

(** A generation parameter of the template backend. *)
Record FastGenPar : Type := mkFastGenPar {
  fg_z : float;
  fg_daymax : float;
  fg_epsilon_x0 : float;
  fg_epsilon_x1 : float;
  fg_epsilon_color : float;
  fg_epsilon_daymax : float
}.

(** [__init__], lines 55-59: the metadata shared by every table. *)
Definition fast_init (x1s colors : list float) (gen : list FastGenPar)
  : result (gmap string pyval) :=
  x1 ← unique_item_float x1s;
  color ← unique_item_float colors;
  e0 ← unique_item_float (map fg_epsilon_x0 gen);
  e1 ← unique_item_float (map fg_epsilon_x1 gen);
  e2 ← unique_item_float (map fg_epsilon_color gen);
  e3 ← unique_item_float (map fg_epsilon_daymax gen);
  let premeta :=
    dict_zip ["x1"; "color"; "x0"]%string
             [PFloat x1; PFloat color; PFloat (-1)%float] in
  let premeta := dict_update premeta (dict_zip ["epsilon_x0"]%string [PFloat e0]) in
  let premeta := dict_update premeta (dict_zip ["epsilon_x1"]%string [PFloat e1]) in
  let premeta := dict_update premeta (dict_zip ["epsilon_color"]%string [PFloat e2]) in
  Ok (dict_update premeta (dict_zip ["epsilon_daymax"]%string [PFloat e3])).

(** Equality of floats as values of a key. *)
#[global] Instance float_eq_dec : EqDecision float.
Proof.
  intros x y. destruct (PrimFloat.Leibniz.eqb x y) eqn:E.
  - left. now apply FloatAxioms.Leibniz.eqb_spec.
  - right. intros H. apply FloatAxioms.Leibniz.eqb_spec in H. congruence.
Defined.

(** The order of the group keys [(z, daymax)]. *)
Definition key_leb (a b : float * float) : bool :=
  ((a.1 <? b.1) || ((a.1 =? b.1) && (a.2 <=? b.2)))%float.

Fixpoint insert_key (k : float * float) (l : list (float * float))
  : list (float * float) :=
  match l with
  | [] => [k]
  | h :: l' => if key_leb k h then k :: h :: l' else h :: insert_key k l'
  end.

Section Fast.

(** The columns of the combined result besides [z] and [daymax]. *)
Context {D : Type}.

Definition FastRow : Type := float * float * D.

Definition row_key (r : FastRow) : float * float := r.1.

Variable np_mean : list float -> float.

(** [LCfast.__call__]: the combined result for a shard. *)
Variable lcFast : list Obs -> list FastGenPar -> list FastRow.

(** The keys of [tab.groupby(['z', 'daymax'])]: the distinct pairs, in
    ascending order. Keys are told apart as float values; a NaN key (whose
    rows pandas drops) and the two zeros (one group in pandas) are not
    treated apart. *)
Definition group_keys (tab : list FastRow) : list (float * float) :=
  foldr insert_key [] (remove_dups (map row_key tab)).

(** [SN.transform]. *)
Definition transform (premeta : gmap string pyval) (tab : list FastRow)
  : list (Table FastRow) :=
  map (fun name =>
         mkTable (filter (fun r => row_key r = name) tab)
           (dict_update
              (dict_zip ["z"; "daymax"]%string [PFloat name.1; PFloat name.2])
              premeta))
    (group_keys tab).

(** [sn_fast.SN.__call__]; [premeta] is the dict [__init__] built. *)
Definition fast_call (premeta : gmap string pyval) (gen : list FastGenPar)
  (obs : list Obs) : result (list (Table FastRow)) :=
  let RA := np_mean (map obs_RA obs) in
  let Dec := np_mean (map obs_Dec obs) in
  pixRA ← unique_item_float (map obs_pixRA obs);
  pixDec ← unique_item_float (map obs_pixDec obs);
  pixID ← unique_item (map obs_healpixID obs);
  let dL := (-1) in
  let premeta :=
    dict_update premeta
      (dict_zip ["RA"; "Dec"; "pixRA"; "pixDec"; "healpixID"; "dL"]%string
         [PFloat RA; PFloat Dec; PFloat pixRA; PFloat pixDec; PInt pixID;
          PInt dL]) in
  let tab_tot := lcFast obs gen in
  Ok (transform premeta tab_tot).

End Fast.

(** ** Concrete instances *)

(** A rendering of floats by the digits of sign, mantissa and exponent:
    injective and free of underscores, as Python's [repr] is. *)
Definition spec_digits (f : spec_float) : list Z :=
  match f with
  | S754_zero s => [0; Z.b2z s]
  | S754_infinity s => [1; Z.b2z s]
  | S754_nan => [2]
  | S754_finite s m e => [3; Z.b2z s; Z.pos m; e]
  end.

Definition digits_repr (x : float) : string :=
  match map str_of_int (spec_digits (Prim2SF x)) with
  | [] => EmptyString
  | a :: l => join "." a l
  end.

(** A fiducial parameter (no perturbation), the same with [epsilon_x0] set
    to [2^-40], and the same in another pixel. *)
Definition gp_fiducial : GenerationParameter :=
  Build_GenerationParameter 7 0 0 0.3 59855.25 1 0 0 0 0.

Definition gp_small_epsilon : GenerationParameter :=
  Build_GenerationParameter 7 0 0 0.3 59855.25 1 0x1p-40 0 0 0.

Definition gp_other_pixel : GenerationParameter :=
  Build_GenerationParameter 8 0 0 0.3 59855.25 1 0 0 0 0.

(** Two perturbations whose scaled values add up to the same code. *)
Definition gp_epsilon_x0_eighth : GenerationParameter :=
  Build_GenerationParameter 7 0 0 0.3 59855.25 1 0.125 0 0 0.

Definition gp_epsilon_x1_five_quarters : GenerationParameter :=
  Build_GenerationParameter 7 0 0 0.3 59855.25 1 0 1.25 0 0.

(** ** Invariants of the writer *)

(** The keys [writeLC] adds to a table's own metadata. *)
Definition bookkeeping : gset string := list_to_set metanames.

(** A metadata accumulator after [n] tables whose metadata have the keys
    [K]: the empty dict before the first table, then one list of [n] values
    for each key of [K] and each bookkeeping key. *)
Definition accumulated (K : gset string) (n : nat) (m : MetaLists) : Prop :=
  (m = ∅ /\ n = 0%nat) \/
  (dom m = K ∪ bookkeeping /\ forall k l, m !! k = Some l -> length l = n).



(** An engine before [prepareSave], a supernova, and two tables of the
    spectral backend: one with two rows, one with none and status -1. *)
Definition engine_example : Engine :=
  mkEngine "out" "prod" true 2 false 9.5 None "unknown" 0 100 ∅ ∅ ∅ ∅ ∅.

Definition sn_example : CosmoSN :=
  mkCosmoSN 100 0.3 0 0 59855.25 (-20) 60 380 800 0 0 0 0 0.5 1500 9.5.

Definition pix_example : Pix := mkPix 7 1.5 (-30).

Definition table_two_rows : Table nat :=
  mkTable [1%nat; 2%nat] (metadata sn_example 1.5 (-30) pix_example 9.5 1 0.25 1).



(** A table whose metadata hold the index fields and no [SNID]. *)
Definition table_fast_like : Table nat :=
  mkTable [1%nat] (index_meta gp_fiducial).

(** The example engine after [prepareSave] for the process tag 1. *)
Definition engine_prepared : Engine :=
  (prepareSave (R := nat) engine_example ∅ 1).1.

(** ** The merge, stated on lists *)

(** The messages of the workers, [{j: meta_lc}] for shard [j], in shard
    order. *)
Definition messages (results : list MetaLists) : list (nat * MetaLists) :=
  zip (seq 0 (length results)) results.

(** The list of a field after the store took the workers' lists in turn. *)
Definition concat_field (store : MetaLists) (results : list MetaLists)
  (key : string) : list pyval :=
  default [] (store !! key)
  ++ concat (map (fun r => default [] (r !! key)) results).

(** Two worker results with the fields [z] and [status]. *)
Definition result_first : MetaLists :=
  {[ "z" := [PFloat 0.3]; "status" := [PInt 1] ]}.

Definition result_second : MetaLists :=
  {[ "z" := [PFloat 0.5; PFloat 0.8]; "status" := [PInt 1; PInt (-1)] ]}.

(** ** Observers and examples for the backends and the season loop *)

Definition is_NameError {A : Type} (r : result A) : bool :=
  match r with
  | Raise NameError => true
  | _ => false
  end.



(** A visit of season 1 in pixel 7, and a season with four visits in [g]
    and three in [u]. *)
Definition visit (band : string) (mjd : float) : Obs :=
  mkObs 1 band mjd 24 30 1 1.5 (-30) 7 1.5 (-30).

Definition season_mostly_u : list Obs :=
  [visit "g" 59850; visit "u" 59851; visit "g" 59852; visit "u" 59853;
   visit "g" 59854; visit "u" 59855; visit "g" 59856].

(** A combined result of the template backend: three rows for two pairs
    [(z, daymax)]. *)
Definition fast_rows : list (float * float * nat) :=
  [((0.5, 59860), 1%nat); ((0.25, 59855), 2%nat); ((0.5, 59860), 3%nat)]%float.

Definition fast_gen : list FastGenPar :=
  [mkFastGenPar 0.5 59860 0 0 0 0; mkFastGenPar 0.25 59855 0 0 0 0].

(** The shared metadata [__init__] builds for [fast_gen]. *)
Definition fast_premeta_example : gmap string pyval :=
  match fast_init [0%float] [0%float] fast_gen with
  | Ok premeta => premeta
  | Raise _ => ∅
  end.

(** Two float constants that differ in their bits are different. *)
Ltac float_discr :=
  let H := fresh in
  intros H;
  match type of H with
  | ?a = _ => apply (f_equal (fun x => PrimFloat.Leibniz.eqb a x)) in H
  end;
  vm_compute in H; discriminate H.

(** The accumulator after the table of two rows was written. *)
Definition meta_after_one : MetaLists :=
  match writeLC digits_repr engine_prepared (∅ : Disk nat) 11 table_two_rows
          1 1 ∅ with
  | Ok r => r.2
  | Raise _ => ∅
  end.

(** ** More observers *)

(** A band name whose last letter is [u]. *)
Definition ends_with_u (band : string) : bool :=
  match last_char band with
  | Ok c => Ascii.eqb c "u"
  | Raise _ => false
  end.

(** The batch after [seasoncalc] and the optional stacker, and the seasons
    [run] loops over. *)
Definition prepared_obs (seasoncalc : list Obs -> list Obs)
  (stacker : option (list Obs -> list Obs)) (obs : list Obs) : list Obs :=
  match stacker with
  | Some st => st (seasoncalc obs)
  | None => seasoncalc obs
  end.

Definition seasons_of (e : Engine) (obs : list Obs) : list Z :=
  match season e with
  | None => np_unique (map obs_season obs)
  | Some l => l
  end.

(** The files after the first lines of [run]: those of a tag seen for the
    first time are removed when saving is on. *)
Definition disk_after_prepare {R : Type} (e : Engine) (d : Disk R)
  (iproc : nat) : Disk R :=
  match nprocdict e !! iproc with
  | Some _ => d
  | None => if save_status e then (prepareSave e d iproc).2 else d
  end.

(** A season with fewer than 5 visits outside the [u] band. *)
Definition skipped (obs : list Obs) (seas : Z) : Prop :=
  exists kept,
    remove_u (filter (fun o => obs_season o = seas) obs) = Ok kept /\
    (length kept < 5)%nat.

(** An engine configured with no worker. *)
Definition engine_no_worker : Engine :=
  mkEngine "out" "prod" true 0 false 9.5 None "unknown" 0 100 ∅ ∅ ∅ ∅ ∅.

(** The prepared engine with a store of one row for the tag 1. *)
Definition engine_with_store : Engine :=
  set_sn_meta engine_prepared (<[1%nat := result_first]> (sn_meta engine_prepared)).

(** ** [simuLCs] for the spectral backend *)

Section SpectralWorker.

Context {R Spectrum GenPar : Type}.
Variable np_mean : list float -> float.
Variable log10 : float -> float.
Variable cutoff :
  list Obs -> float -> float -> float -> float -> float -> float -> list Obs.
Variable SN_flux : CosmoSN -> float -> Spectrum.
Variable calcFlux : Spectrum -> string -> float.
Variable photometry : CosmoSN -> list FluxRow -> list R.
Variable ptime : float.

(** [SN_Object] and [sn_cosmo.SN.__init__]: the supernova of a generation
    parameter (the amplitude grid and the cosmology are external). *)
Variable make_sn : GenPar -> CosmoSN.


End SpectralWorker.

(** * Part II: properties *)

(** ** Strings *)

Lemma has_char_app c a b :
  has_char c (a +:+ b) = has_char c a || has_char c b.
Proof.
  induction a as [|x a IH]; simpl; [reflexivity|].
  destruct (Ascii.eqb x c); simpl; auto.
Qed.

(** Cutting at the first separator is unambiguous. *)
Lemma cut_at_sep c x y r r' :
  has_char c x = false -> has_char c y = false ->
  x +:+ String c r = y +:+ String c r' -> x = y /\ r = r'.
Proof.
  revert y. induction x as [|a x IH]; intros [|b y] Hx Hy E; simpl in *.
  - injection E as ->. auto.
  - injection E as <- _. rewrite Ascii.eqb_refl in Hy. discriminate.
  - injection E as -> _. rewrite Ascii.eqb_refl in Hx. discriminate.
  - injection E as -> E.
    destruct (Ascii.eqb b c); [discriminate|].
    destruct (IH y Hx Hy E) as [-> ->]. auto.
Qed.

Lemma no_sep_in_free c x y r :
  has_char c x = false -> x = y +:+ String c r -> False.
Proof.
  intros Hx ->. rewrite has_char_app in Hx. simpl in Hx.
  rewrite Ascii.eqb_refl in Hx. destruct (has_char c y); discriminate.
Qed.

(** Joined components that hold no separator can be read back. *)
Lemma join_inj c x xs y ys :
  has_char c x = false -> Forall (fun s => has_char c s = false) xs ->
  has_char c y = false -> Forall (fun s => has_char c s = false) ys ->
  join c x xs = join c y ys -> x = y /\ xs = ys.
Proof.
  revert x y ys. induction xs as [|x1 xs IH]; intros x y [|y1 ys] Hx Hxs Hy Hys E;
    simpl in E.
  - auto.
  - exact (False_ind _ (no_sep_in_free _ _ _ _ Hx E)).
  - exact (False_ind _ (no_sep_in_free _ _ _ _ Hy (eq_sym E))).
  - apply Forall_cons in Hxs as [Hx1 Hxs]. apply Forall_cons in Hys as [Hy1 Hys].
    destruct (cut_at_sep _ _ _ _ _ Hx Hy E) as [-> E'].
    destruct (IH _ _ _ Hx1 Hxs Hy1 Hys E') as [-> ->]. auto.
Qed.

Lemma uint_no_char c d :
  has_char c "-0123456789" = false ->
  has_char c (NilEmpty.string_of_uint d) = false.
Proof.
  intros H. cbn [has_char] in H.
  repeat match type of H with
         | (if Ascii.eqb ?a c then _ else _) = _ =>
             let E := fresh "E" in
             destruct (Ascii.eqb a c) eqn:E; [discriminate|]
         end.
  induction d; cbn [NilEmpty.string_of_uint has_char];
    rewrite ?E0, ?E1, ?E2, ?E3, ?E4, ?E5, ?E6, ?E7, ?E8, ?E9; auto.
Qed.

Lemma str_of_int_no_char c n :
  has_char c "-0123456789" = false -> has_char c (str_of_int n) = false.
Proof.
  intros H. unfold str_of_int.
  destruct (Z.to_int n) as [d|d]; cbn [NilEmpty.string_of_int has_char].
  - now apply uint_no_char.
  - assert (Ascii.eqb "-" c = false) as ->.
    { cbn [has_char] in H. destruct (Ascii.eqb "-" c); [discriminate|reflexivity]. }
    now apply uint_no_char.
Qed.

Lemma str_of_int_inj a b : str_of_int a = str_of_int b -> a = b.
Proof.
  unfold str_of_int. intros E.
  apply DecimalZ.to_int_inj.
  assert (Some (Z.to_int a) = Some (Z.to_int b)) as [= ->]; [|reflexivity].
  rewrite <- !NilEmpty.isi. now rewrite E.
Qed.

Lemma has_char_join c sep x xs :
  Ascii.eqb sep c = false -> has_char c x = false ->
  Forall (fun s => has_char c s = false) xs ->
  has_char c (join sep x xs) = false.
Proof.
  intros Hsep. revert x. induction xs as [|y ys IH]; intros x Hx Hxs;
    cbn [join]; [exact Hx|].
  apply Forall_cons in Hxs as [Hy Hys].
  rewrite has_char_app, Hx. cbn [has_char orb]. rewrite Hsep. now apply IH.
Qed.

(** ** The concrete rendering of floats *)

Lemma spec_digits_inj f g : spec_digits f = spec_digits g -> f = g.
Proof.
  destruct f as [[]|[]| |[] ? ?], g as [[]|[]| |[] ? ?]; simpl;
    intros H; try discriminate H; try reflexivity;
    injection H as -> ->; reflexivity.
Qed.

Lemma map_str_of_int_inj l l' :
  map str_of_int l = map str_of_int l' -> l = l'.
Proof.
  revert l'. induction l as [|a l IH]; intros [|b l'] H; simpl in H;
    try discriminate H; [reflexivity|].
  injection H as Hab H. apply str_of_int_inj in Hab as ->.
  now rewrite (IH _ H).
Qed.

Lemma digits_all_clean c (l : list Z) :
  has_char c "-0123456789" = false ->
  Forall (fun s => has_char c s = false) (map str_of_int l).
Proof.
  intros H. induction l; simpl; constructor; auto using str_of_int_no_char.
Qed.

Lemma digits_repr_inj a b : digits_repr a = digits_repr b -> a = b.
Proof.
  unfold digits_repr. intros H. apply Prim2SF_inj, spec_digits_inj.
  apply map_str_of_int_inj.
  pose proof (digits_all_clean "." (spec_digits (Prim2SF a)) eq_refl) as Ca.
  pose proof (digits_all_clean "." (spec_digits (Prim2SF b)) eq_refl) as Cb.
  destruct (map str_of_int (spec_digits (Prim2SF a))) as [|x xs] eqn:Ea.
  { destruct (Prim2SF a) as [?|?| |? ? ?]; discriminate Ea. }
  destruct (map str_of_int (spec_digits (Prim2SF b))) as [|y ys] eqn:Eb.
  { destruct (Prim2SF b) as [?|?| |? ? ?]; discriminate Eb. }
  apply Forall_cons in Ca as [Cx Cxs]. apply Forall_cons in Cb as [Cy Cys].
  destruct (join_inj _ _ _ _ _ Cx Cxs Cy Cys H) as [-> ->]. reflexivity.
Qed.

Lemma digits_repr_clean a : has_char "_" (digits_repr a) = false.
Proof.
  unfold digits_repr.
  pose proof (digits_all_clean "_" (spec_digits (Prim2SF a)) eq_refl) as Ca.
  destruct (map str_of_int (spec_digits (Prim2SF a))) as [|x xs]; [reflexivity|].
  apply Forall_cons in Ca as [Cx Cxs]. now apply has_char_join.
Qed.

(** ** IndexAssigner *)

Lemma Ok_inj {A : Type} (a b : A) : Ok a = Ok b -> a = b.
Proof. now intros [= ->]. Qed.

Section IndexFacts.

Variable float_repr : float -> string.

(** Python's [repr] gives different floats different texts, none with an
    underscore. *)
Hypothesis float_repr_inj : forall a b, float_repr a = float_repr b -> a = b.
Hypothesis float_repr_clean : forall a, has_char "_" (float_repr a) = false.

Lemma StorageIndex_unfold (repr : float -> string) p :
  StorageIndex repr p =
  match gp_epsilon_code p with
  | Ok e =>
      Ok (join "_" (str_of_int (gp_healpixID p))
            [repr (gp_x1 p); repr (gp_color p);
             repr (PyFloat.round3 (gp_z p));
             repr (PyFloat.round3 (gp_daymax p));
             str_of_int (gp_season p); str_of_int e])
  | Raise x => Raise x
  end.
Proof.
  unfold StorageIndex, storage_index, gp_epsilon_code.
  destruct (epsilon_code (index_meta p)); reflexivity.
Qed.

(** Parameters that agree on every component of the key, the epsilon code
    included, get the same index, whatever their perturbations are. *)
Lemma StorageIndex_same (repr : float -> string) p q :
  gp_healpixID p = gp_healpixID q -> gp_x1 p = gp_x1 q ->
  gp_color p = gp_color q ->
  PyFloat.round3 (gp_z p) = PyFloat.round3 (gp_z q) ->
  PyFloat.round3 (gp_daymax p) = PyFloat.round3 (gp_daymax q) ->
  gp_season p = gp_season q ->
  gp_epsilon_code p = gp_epsilon_code q ->
  StorageIndex repr p = StorageIndex repr q.
Proof.
  intros H1 H2 H3 H4 H5 H6 H7. rewrite !StorageIndex_unfold.
  now rewrite H1, H2, H3, H4, H5, H6, H7.
Qed.

(** C1, as amended: two generation parameters that differ in pixel id,
    stretch, color, redshift rounded to 3 decimals, daymax rounded to 3
    decimals, season, or in the integer epsilon code (the four perturbations
    scaled by 10^11, 10^10, 10^9 and 10^8, each cut to an integer, summed)
    have distinct storage indices. *)
Theorem StorageIndex_distinct p q ip iq :
  StorageIndex float_repr p = Ok ip ->
  StorageIndex float_repr q = Ok iq ->
  gp_healpixID p <> gp_healpixID q \/ gp_x1 p <> gp_x1 q \/
  gp_color p <> gp_color q \/
  PyFloat.round3 (gp_z p) <> PyFloat.round3 (gp_z q) \/
  PyFloat.round3 (gp_daymax p) <> PyFloat.round3 (gp_daymax q) \/
  gp_season p <> gp_season q \/
  gp_epsilon_code p <> gp_epsilon_code q ->
  ip <> iq.
Proof.
  rewrite !StorageIndex_unfold.
  destruct (gp_epsilon_code p) as [ep|] eqn:Ep; [|discriminate].
  destruct (gp_epsilon_code q) as [eq|] eqn:Eq; [|discriminate].
  intros Hp Hq Hd E. apply Ok_inj in Hp, Hq. subst ip iq.
  assert (has_char "_" "-0123456789" = false) as Hdig by reflexivity.
  apply join_inj in E as [E0 E];
    [| auto using str_of_int_no_char
     | repeat constructor; auto using str_of_int_no_char
     | auto using str_of_int_no_char
     | repeat constructor; auto using str_of_int_no_char ].
  injection E as E1 E2 E3 E4 E5 E6.
  apply str_of_int_inj in E0, E5, E6.
  apply float_repr_inj in E1, E2, E3, E4.
  destruct Hd as [H|[H|[H|[H|[H|[H|H]]]]]]; try (now apply H).
  apply H. now rewrite E6.
Qed.

End IndexFacts.

(** C1, witness: the fiducial parameter in two pixels. *)
Lemma StorageIndex_distinct_witness :
  exists ip iq,
    StorageIndex digits_repr gp_fiducial = Ok ip /\
    StorageIndex digits_repr gp_other_pixel = Ok iq /\
    ip <> iq.
Proof.
  eexists. eexists. split; [vm_compute; reflexivity|].
  split; [vm_compute; reflexivity|].
  apply (StorageIndex_distinct digits_repr digits_repr_inj digits_repr_clean
           gp_fiducial gp_other_pixel); [reflexivity|reflexivity|].
  left. vm_compute. discriminate.
Defined.

(** C1, counterexample: a perturbation of [2^-40] on [x0] is cut to the
    code 0, so the perturbed parameter gets the index of the fiducial one,
    whatever the rendering of floats. *)
Lemma StorageIndex_collision :
  gp_epsilon_x0 gp_fiducial <> gp_epsilon_x0 gp_small_epsilon /\
  gp_epsilon_code gp_fiducial = Ok 0 /\
  gp_epsilon_code gp_small_epsilon = Ok 0 /\
  (forall float_repr : float -> string,
     exists i, StorageIndex float_repr gp_fiducial = Ok i /\
               StorageIndex float_repr gp_small_epsilon = Ok i).
Proof.
  split; [simpl; float_discr|].
  split; [vm_compute; reflexivity|].
  split; [vm_compute; reflexivity|].
  intros repr. rewrite !StorageIndex_unfold.
  replace (gp_epsilon_code gp_fiducial) with (Ok (A:=Z) 0)
    by (vm_compute; reflexivity).
  replace (gp_epsilon_code gp_small_epsilon) with (Ok (A:=Z) 0)
    by (vm_compute; reflexivity).
  eexists. split; reflexivity.
Qed.

(** The sum loses which perturbation was set: 1/8 on [x0] and 5/4 on [x1]
    both give the code 12500000000. *)
Lemma epsilon_code_sum_collision :
  gp_epsilon_code gp_epsilon_x0_eighth = Ok 12500000000 /\
  gp_epsilon_code gp_epsilon_x1_five_quarters = Ok 12500000000.
Proof. split; vm_compute; reflexivity. Qed.

(** ** SeasonBatchScheduler *)

Section SchedulerFacts.

Local Open Scope nat_scope.

Context {A : Type}.


Lemma linspace_int_nth nlc npp i :
  i <= npp -> nth i (linspace_int nlc npp) 0 = i * nlc / npp.
Proof.
  intros Hi. unfold linspace_int.
  rewrite (nth_indep _ 0 ((fun k => k * nlc / npp) 0))
    by (rewrite length_map, length_seq; lia).
  rewrite (map_nth (fun k => k * nlc / npp)), seq_nth by lia. reflexivity.
Qed.





Lemma shards_unfold (gen_params : list A) npp :
  shards gen_params npp =
  map (fun i => slice (i * length gen_params / npp)
                  ((i + 1) * length gen_params / npp) gen_params)
    (seq 0 npp).
Proof.
  unfold shards. apply map_ext_in. intros i Hi. apply in_seq in Hi.
  now rewrite !linspace_int_nth by lia.
Qed.


End SchedulerFacts.


(** ** IncrementalWriter *)

Section WriterFacts.

Context {R : Type}.
Variable float_repr : float -> string.

Lemma bookkeeping_nonempty : bookkeeping <> ∅.
Proof.
  intros H. assert ("SNID" ∈ bookkeeping) as Hin by (vm_compute; reflexivity).
  rewrite H in Hin. set_solver.
Qed.

Lemma dom_metadict_of e snid index seas (lc : Table R) :
  dom (metadict_of e snid index seas lc) = dom (meta lc) ∪ bookkeeping.
Proof.
  unfold metadict_of, dict_update, bookkeeping, metanames. cbn [dict_zip].
  rewrite !dom_union_L, !dom_singleton_L, dom_empty_L. cbn [list_to_set].
  set_solver.
Qed.


Lemma metadict_of_set_SNID e v snid index seas (lc : Table R) :
  metadict_of (set_SNID e v) snid index seas lc
  = metadict_of e snid index seas lc.
Proof. reflexivity. Qed.

(** One table more in the accumulator: every list gains the table's value
    for its key. *)
Lemma extend_meta_ok K n (m : MetaLists) (md : gmap string pyval) :
  accumulated K n m -> dom md = K ∪ bookkeeping ->
  exists m',
    extend_meta m md = Ok m' /\
    accumulated K (S n) m' /\
    forall k v, md !! k = Some v -> m' !! k = Some (default [] (m !! k) ++ [v]).
Proof.
  intros Hacc Hdom. unfold extend_meta, dict_is_empty.
  case_bool_decide as Hempty.
  - apply dom_empty_inv_L in Hempty. subst m.
    assert (n = 0%nat) as ->.
    { destruct Hacc as [[_ ?]|[Hd _]]; [assumption|].
      rewrite dom_empty_L in Hd. exfalso. apply bookkeeping_nonempty.
      symmetry in Hd. now apply empty_union_L in Hd as [_ ?]. }
    eexists. split; [reflexivity|]. split.
    + right. split; [now rewrite dom_fmap_L|].
      intros k l. rewrite lookup_fmap. destruct (md !! k); intros [= <-].
      reflexivity.
    + intros k v Hk. now rewrite lookup_fmap, Hk, lookup_empty.
  - destruct Hacc as [[-> _]|[Hd Hlen]].
    { exfalso. apply Hempty. apply dom_empty_L. }
    unfold extend_lists. rewrite bool_decide_eq_true_2
      by (rewrite dom_fmap_L, Hdom, Hd; reflexivity).
    eexists. split; [reflexivity|]. split.
    + right. split.
      * rewrite <- Hd. apply set_eq. intros k. rewrite !elem_of_dom.
        rewrite map_lookup_imap. destruct (m !! k); simpl;
          split; intros [? ?]; try discriminate; eauto.
      * intros k l. rewrite map_lookup_imap.
        destruct (m !! k) as [l0|] eqn:Hk; simpl; [|discriminate].
        intros [= <-]. rewrite lookup_fmap.
        assert (is_Some (md !! k)) as [v Hv].
        { apply elem_of_dom. rewrite Hdom, <- Hd. apply elem_of_dom. eauto. }
        rewrite Hv. simpl. rewrite length_app, (Hlen _ _ Hk). simpl. lia.
    + intros k v Hk. rewrite map_lookup_imap.
      assert (is_Some (m !! k)) as [l0 Hl0].
      { apply elem_of_dom. rewrite Hd, <- Hdom. apply elem_of_dom. eauto. }
      rewrite Hl0. simpl. now rewrite lookup_fmap, Hk.
Qed.



Lemma writeLC_ok K n e (d : Disk R) snid (lc : Table R) seas j m index file :
  storage_index float_repr (meta lc) (PInt seas) = Ok index ->
  lc_out e !! j = Some file ->
  dom (meta lc) = K ->
  accumulated K n m ->
  exists m',
    writeLC float_repr e d snid lc seas j m
    = Ok (hdf5_append d file ("lc_" +:+ index) (LCEntry lc), m') /\
    accumulated K (S n) m' /\
    forall k v, metadict_of e snid index seas lc !! k = Some v ->
                m' !! k = Some (default [] (m !! k) ++ [v]).
Proof.
  intros Hidx Hfile HK Hacc. unfold writeLC. rewrite Hidx. cbn.
  unfold getitem_nat. rewrite Hfile. cbn.
  destruct (extend_meta_ok K n m (metadict_of e snid index seas lc) Hacc)
    as (m' & -> & Hacc' & Hval).
  { rewrite dom_metadict_of. now rewrite HK. }
  exists m'. cbn. auto.
Qed.

Lemma dump_app e (d : Disk R) (l1 l2 : list (Table R)) seas j m :
  dump float_repr e d (l1 ++ l2) seas j m
  = r ← dump float_repr e d l1 seas j m;
    dump float_repr r.1.1 r.1.2 l2 seas j r.2.
Proof.
  revert e d m. induction l1 as [|lc l1 IH]; intros e d m; [reflexivity|].
  cbn [app dump].
  destruct (getitem_nat (SNID e) j) as [c|]; [|reflexivity]. cbn.
  destruct (writeLC float_repr _ d (c + 1) lc seas j m) as [w|]; [|reflexivity].
  cbn. apply IH.
Qed.



End WriterFacts.





(** ** Fan-in and merge *)

Lemma collect_list_to_map (msgs : list (nat * MetaLists)) :
  NoDup msgs.*1 -> collect msgs = list_to_map msgs.
Proof.
  unfold collect. induction msgs as [|[k v] l IH] using rev_ind; [reflexivity|].
  rewrite fmap_app, NoDup_app. intros (Hl & Hk & _).
  rewrite foldl_snoc, (IH Hl). cbn [fst snd].
  symmetry. apply list_to_map_snoc.
  intros Hin. apply (Hk k Hin). cbn. apply list_elem_of_here.
Qed.

Lemma messages_keys (results : list MetaLists) :
  (messages results).*1 = seq 0 (length results).
Proof. unfold messages. apply fst_zip. now rewrite length_seq. Qed.

Lemma messages_lookup (results : list MetaLists) j :
  (list_to_map (messages results) : gmap nat MetaLists) !! j = results !! j.
Proof.
  apply option_eq. intros r.
  rewrite <- elem_of_list_to_map by (rewrite messages_keys; apply NoDup_seq).
  unfold messages. rewrite elem_of_lookup_zip_with. split.
  - intros (i & x & y & [= -> ->] & Hx & Hy).
    apply lookup_seq in Hx as [-> _]. exact Hy.
  - intros Hr. exists j, j, r. split; [reflexivity|]. split; [|exact Hr].
    apply lookup_seq. split; [reflexivity|]. eapply lookup_lt_Some, Hr.
Qed.

(** Whatever the order of arrival, [resultdict[j]] is the result of
    worker [j]. *)
Lemma collect_arrival (results : list MetaLists)
  (arrival : list (nat * MetaLists)) j :
  arrival ≡ₚ messages results -> collect arrival !! j = results !! j.
Proof.
  intros Hperm.
  assert (NoDup arrival.*1) as Hnd.
  { rewrite Hperm, messages_keys. apply NoDup_seq. }
  rewrite (collect_list_to_map _ Hnd).
  rewrite (list_to_map_proper _ _ Hnd Hperm). apply messages_lookup.
Qed.

Lemma extend_lists_ok (acc add : MetaLists) :
  dom add ⊆ dom acc ->
  exists m',
    extend_lists acc add = Ok m' /\ dom m' = dom acc /\
    forall k, default [] (m' !! k)
              = default [] (acc !! k) ++ default [] (add !! k).
Proof.
  intros Hsub. unfold extend_lists. rewrite bool_decide_eq_true_2 by exact Hsub.
  eexists. split; [reflexivity|]. split.
  - apply set_eq. intros k. rewrite !elem_of_dom, map_lookup_imap.
    destruct (acc !! k); simpl; split; intros [? ?]; try discriminate; eauto.
  - intros k. rewrite map_lookup_imap.
    destruct (acc !! k) as [l|] eqn:Hk; simpl; [reflexivity|].
    assert (add !! k = None) as ->; [|reflexivity].
    apply not_elem_of_dom. intros Hin. apply Hsub in Hin.
    apply elem_of_dom in Hin as [? Hin]. congruence.
Qed.

Lemma merge_step_ok K (store r : MetaLists) :
  store = ∅ \/ dom store = K -> r = ∅ \/ dom r = K ->
  exists s',
    merge_step store r = Ok s' /\ (s' = ∅ \/ dom s' = K) /\
    forall k, default [] (s' !! k)
              = default [] (store !! k) ++ default [] (r !! k).
Proof.
  intros Hs Hr. unfold merge_step, dict_is_empty. case_bool_decide as He.
  - apply dom_empty_inv_L in He. subst store. exists r.
    split; [reflexivity|]. split; [exact Hr|].
    intros k. now rewrite lookup_empty.
  - destruct Hs as [->|Hs]; [exfalso; apply He, dom_empty_L|].
    destruct (extend_lists_ok store r) as (m' & -> & Hd & Hv).
    { destruct Hr as [->|Hr]; [rewrite dom_empty_L; apply empty_subseteq|].
      now rewrite Hr, Hs. }
    exists m'. split; [reflexivity|]. split; [right; congruence|exact Hv].
Qed.

Lemma merge_results_spec K rd iproc js (rs : list MetaLists) :
  Forall2 (fun j r => rd !! j = Some r) js rs ->
  Forall (fun r => r = ∅ \/ dom r = K) rs ->
  forall e store,
    sn_meta e !! iproc = Some store -> store = ∅ \/ dom store = K ->
    exists e' merged,
      merge_results e iproc rd js = Ok e' /\
      sn_meta e' = <[iproc := merged]> (sn_meta e) /\
      (merged = ∅ \/ dom merged = K) /\
      forall key, default [] (merged !! key) = concat_field store rs key.
Proof.
  induction 1 as [|j r js rs Hj _ IH]; intros Hrs e store He Hs.
  - exists e, store. split; [reflexivity|].
    split; [symmetry; now apply insert_id|]. split; [exact Hs|].
    intros key. unfold concat_field. cbn. now rewrite app_nil_r.
  - apply Forall_cons in Hrs as [Hr Hrs].
    cbn [merge_results]. unfold getitem_nat. rewrite Hj, He. cbn.
    destruct (merge_step_ok K store r Hs Hr) as (s' & -> & Hs' & Hv). cbn.
    destruct (IH Hrs (set_sn_meta e (<[iproc := s']> (sn_meta e))) s')
      as (e' & merged & -> & Hm & Hdm & Hc);
      [apply lookup_insert_eq|exact Hs'|].
    exists e', merged. split; [reflexivity|].
    split; [rewrite Hm; cbn; apply insert_insert_eq|].
    split; [exact Hdm|].
    intros key. rewrite Hc. unfold concat_field. cbn [map concat].
    now rewrite Hv, <- !app_assoc.
Qed.

(** C4: the results of the workers, each empty or with the key set of the
    store, are merged in shard order whatever the order in which the
    messages arrived; the merge succeeds, and for every field the store
    ends with its former list followed by the workers' lists in shard
    order. *)
Theorem merge_in_index_order K (e : Engine) iproc (results : list MetaLists)
  (store : MetaLists) (arrival : list (nat * MetaLists)) :
  sn_meta e !! iproc = Some store ->
  store = ∅ \/ dom store = K ->
  Forall (fun r => r = ∅ \/ dom r = K) results ->
  arrival ≡ₚ messages results ->
  exists e' merged,
    merge_results e iproc (collect arrival) (seq 0 (length results)) = Ok e' /\
    merge_results e iproc (collect (messages results))
      (seq 0 (length results)) = Ok e' /\
    sn_meta e' = <[iproc := merged]> (sn_meta e) /\
    forall key, default [] (merged !! key) = concat_field store results key.
Proof.
  intros He Hs Hrs Hperm.
  assert (Hlook : forall arr, arr ≡ₚ messages results ->
            Forall2 (fun j r => collect arr !! j = Some r)
              (seq 0 (length results)) results).
  { intros arr Harr. apply Forall2_same_length_lookup_2.
    - now rewrite length_seq.
    - intros i j r Hi Hr. apply lookup_seq in Hi as [-> _].
      now rewrite (collect_arrival results arr _ Harr). }
  destruct (merge_results_spec K _ iproc _ _ (Hlook arrival Hperm) Hrs e store
              He Hs) as (e' & merged & H1 & Hm & _ & Hc).
  destruct (merge_results_spec K _ iproc _ _
              (Hlook (messages results) (reflexivity _)) Hrs e store He Hs)
    as (e2 & merged2 & H2 & _ & _ & _).
  exists e', merged. split; [exact H1|]. split; [|auto].
  rewrite <- H1.
  assert (collect arrival = collect (messages results)) as ->; [|reflexivity].
  apply map_eq. intros j.
  now rewrite (collect_arrival results arrival j Hperm),
    (collect_arrival results (messages results) j (reflexivity _)).
Qed.

(** C4, witness: the second worker's message arrives first. *)
Lemma merge_in_index_order_witness :
  exists e' merged,
    merge_results engine_prepared 1
      (collect [(1%nat, result_second); (0%nat, result_first)])
      (seq 0 2) = Ok e' /\
    sn_meta e' !! 1%nat = Some merged /\
    default [] (merged !! "z") = [PFloat 0.3; PFloat 0.5; PFloat 0.8] /\
    default [] (merged !! "status") = [PInt 1; PInt 1; PInt (-1)].
Proof.
  destruct (merge_in_index_order {[ "z"; "status" ]} engine_prepared 1
              [result_first; result_second] ∅
              [(1%nat, result_second); (0%nat, result_first)])
    as (e' & merged & H1 & _ & Hm & Hc).
  - vm_compute. reflexivity.
  - left. reflexivity.
  - repeat constructor; right; vm_compute; reflexivity.
  - apply perm_swap.
  - exists e', merged. split; [exact H1|].
    split; [rewrite Hm; apply lookup_insert_eq|].
    split; rewrite Hc; vm_compute; reflexivity.
Defined.

(** ** The season loop *)

Section SeasonFacts.

Context {R GenPar : Type}.
Variable float_repr : float -> string.
Variable simuLCs_one : list Obs -> Z -> GenPar -> result (list (Table R)).
Variable simuLCs_all : list Obs -> Z -> list GenPar -> result (list (Table R)).
Variable Params : list Obs -> option (list GenPar).
Variable arrival : list (nat * MetaLists) -> list (nat * MetaLists).

(** C6: when fewer than 5 visits of the season are left once the bands
    ending in [u] are removed, the turn of the season loop returns without
    an error and without a call of [simuSeason]: the files are as they were,
    and so is the engine (counters, stores) but for [index_hdf5]. It does
    not depend on the backend, the grid or the queue. *)
Theorem season_skipped (e : Engine) (d : Disk R) (obs : list Obs) (seas : Z)
  (iproc : nat) (kept : list Obs) :
  remove_u (filter (fun o => obs_season o = seas) obs) = Ok kept ->
  (length kept < 5)%nat ->
  run_season float_repr simuLCs_one simuLCs_all Params arrival e d obs seas
    iproc
  = Ok (set_index_hdf5 e (index_hdf5 e + 10000 * (seas - 1)), d).
Proof.
  intros Hkept Hlen.
  assert ((5 <=? length kept)%nat = false) as Hb by (apply Nat.leb_gt; lia).
  unfold run_season. rewrite Hkept. unfold mbind, result_bind.
  now rewrite Hb.
Qed.

(** With every store empty, [save_metadata] writes nothing. *)
Lemma save_metadata_nothing (e : Engine) (d : Disk R) isav :
  (forall k m, sn_meta e !! k = Some m -> m = ∅) ->
  save_metadata e d isav = Ok d.
Proof.
  intros Hall. unfold save_metadata.
  assert (Forall (fun kv => kv.2 = ∅) (map_to_list (sn_meta e))) as HF.
  { apply Forall_forall. intros [k m] Hin. apply elem_of_map_to_list in Hin.
    exact (Hall k m Hin). }
  induction HF as [|kv l Hkv _ IH]; [reflexivity|].
  cbn [foldr]. rewrite IH. cbn. rewrite Hkv. reflexivity.
Qed.

End SeasonFacts.

(** C6, witness: a season with four visits in [g] and three in [u], with a
    backend that would raise if it were called. *)
Lemma season_skipped_witness :
  run_season (R := nat) (GenPar := unit) digits_repr
    (fun _ _ _ => Raise KeyError) (fun _ _ _ => Raise KeyError)
    (fun _ => Some [tt]) (fun q => q) engine_prepared ∅ season_mostly_u 1 1
  = Ok (set_index_hdf5 engine_prepared (index_hdf5 engine_prepared
                                        + 10000 * (1 - 1)), ∅).
Proof.
  apply (season_skipped (R := nat) (GenPar := unit) digits_repr
           (fun _ _ _ => Raise KeyError) (fun _ _ _ => Raise KeyError)
           (fun _ => Some [tt]) (fun q => q) engine_prepared ∅
           season_mostly_u 1 1
           [visit "g" 59850; visit "g" 59852; visit "g" 59854;
            visit "g" 59856]).
  - vm_compute. reflexivity.
  - cbn. lia.
Defined.

(** ** The spectral backend *)

Lemma insert_unique_cons x l : exists y l', insert_unique x l = y :: l'.
Proof.
  destruct l as [|y l]; cbn; [eauto|].
  destruct (x <? y); [eauto|]. destruct (x =? y); eauto.
Qed.

Lemma unique_first_nonempty (l : list Z) :
  l <> [] -> exists x, unique_first l = Ok x.
Proof.
  destruct l as [|a l]; [congruence|]. intros _. unfold unique_first, np_unique.
  cbn [foldr].
  destruct (insert_unique_cons a (foldr insert_unique [] l)) as (y & l' & ->).
  eauto.
Qed.

Lemma unique_first_float_nonempty (l : list float) :
  l <> [] -> exists x, unique_first_float l = Ok x.
Proof. destruct l; [congruence|]. cbn. eauto. Qed.

Lemma unique_first_cases (l : list Z) :
  (exists x, unique_first l = Ok x) \/ unique_first l = Raise IndexError.
Proof. unfold unique_first. destruct (np_unique l); eauto. Qed.

Lemma unique_first_float_cases (l : list float) :
  (exists x, unique_first_float l = Ok x)
  \/ unique_first_float l = Raise IndexError.
Proof. destruct l; cbn; eauto. Qed.

Section CosmoFacts.

Context {R Spectrum : Type}.
Variable np_mean : list float -> float.
Variable log10 : float -> float.
Variable cutoff :
  list Obs -> float -> float -> float -> float -> float -> float -> list Obs.
Variable SN_flux : CosmoSN -> float -> Spectrum.
Variable calcFlux : Spectrum -> string -> float.
Variable photometry : CosmoSN -> list FluxRow -> list R.
Variable ptime : float.

(** C9: [__call__] never raises [NameError]: the frame [lcdf] has one row
    per visit left by [cutoff], so when the test [len(obs) == 0] is reached
    the test [len(lcdf) == 0] has failed on the same length. *)
Theorem cosmo_call_no_NameError (sn : CosmoSN) (obs : list Obs) :
  is_NameError
    (cosmo_call np_mean log10 cutoff SN_flux calcFlux photometry ptime sn obs)
  = false.
Proof.
  unfold cosmo_call.
  destruct (unique_first_cases (map obs_season obs)) as [[seas ->]| ->];
    [|reflexivity].
  destruct (unique_first_cases (map obs_healpixID obs)) as [[hp ->]| ->];
    [|reflexivity].
  destruct (unique_first_float_cases (map obs_pixRA obs)) as [[pra ->]| ->];
    [|reflexivity].
  destruct (unique_first_float_cases (map obs_pixDec obs)) as [[pdec ->]| ->];
    [|reflexivity].
  cbn [mbind result_bind]. rewrite length_map.
  destruct (length (cutoff obs _ _ _ _ _ _) =? 0)%nat; [reflexivity|].
  destruct (length (zip_with _ _ _) =? 0)%nat; reflexivity.
Qed.

End CosmoFacts.

(** C7: the replacement on line 292 tests [int_fluxes < 0.], so a flux of
    exactly 0 is kept: the argument of the logarithm on line 319 is then 0,
    not a positive number. A negative flux is replaced by [1e-5]. *)
Theorem zero_flux_not_clamped :
  clamp_flux 0 = 0%float /\
  (0 <? mag_arg (clamp_flux 0))%float = false /\
  int_fluxes (Spectrum := unit) (fun _ _ => tt) (fun _ _ => 0%float)
    sn_example [59850%float] [outvals (visit "g" 59850)] = [0%float] /\
  clamp_flux (-1) = 1e-5%float.
Proof. repeat split; vm_compute; reflexivity. Qed.

(** ** The template backend *)

Lemma insert_key_perm k l : insert_key k l ≡ₚ k :: l.
Proof.
  induction l as [|h l IH]; cbn; [reflexivity|].
  destruct (key_leb k h); [reflexivity|].
  rewrite IH. apply perm_swap.
Qed.

Lemma sorted_keys_perm l : foldr insert_key [] l ≡ₚ l.
Proof.
  induction l as [|k l IH]; cbn; [reflexivity|].
  now rewrite insert_key_perm, IH.
Qed.

Section FastFacts.

Context {D : Type}.
Variable np_mean : list float -> float.
Variable lcFast : list Obs -> list FastGenPar -> list (@FastRow D).

(** The groups are the distinct keys of the rows, each once. *)
Lemma group_keys_spec (tab : list (@FastRow D)) :
  NoDup (group_keys tab) /\
  forall k, k ∈ group_keys tab <-> exists r, r ∈ tab /\ row_key r = k.
Proof.
  unfold group_keys. split.
  - rewrite sorted_keys_perm. apply NoDup_remove_dups.
  - intros k. rewrite sorted_keys_perm, elem_of_remove_dups, list_elem_of_fmap.
    split; intros (r & H1 & H2); exists r; auto.
Qed.


End FastFacts.


(** ** No matching epoch *)

Section EmptyMatch.

Context {R Spectrum D : Type}.
Variable np_mean : list float -> float.
Variable log10 : float -> float.
Variable cutoff :
  list Obs -> float -> float -> float -> float -> float -> float -> list Obs.
Variable SN_flux : CosmoSN -> float -> Spectrum.
Variable calcFlux : Spectrum -> string -> float.
Variable photometry : CosmoSN -> list FluxRow -> list R.
Variable ptime : float.
Variable lcFast : list Obs -> list FastGenPar -> list (@FastRow D).

(** [transform] of a combined result with no row is the empty list. *)
Lemma transform_nil (premeta : gmap string pyval) :
  transform (D := D) premeta [] = [].
Proof. reflexivity. Qed.

(** C5, as amended: for a batch with visits of which [cutoff] keeps none,
    the spectral backend returns exactly one table, with no row, the
    metadata of the supernova and status -1. The template backend has no
    such table: when its combined result has no row it returns the empty
    list (once the pixel of the batch is read). *)
Theorem empty_match (sn : CosmoSN) (obs : list Obs)
  (premeta : gmap string pyval) (gen : list FastGenPar) :
  obs <> [] ->
  cutoff obs (sn_daymax sn) (sn_z sn) (sn_min_rf_phase sn)
    (sn_max_rf_phase sn) (sn_blue_cutoff sn) (sn_red_cutoff sn) = [] ->
  (exists t,
     cosmo_call np_mean log10 cutoff SN_flux calcFlux photometry ptime sn obs
     = Ok [t] /\
     rows t = [] /\
     meta t !! "status" = Some (PInt (-1)) /\
     dom (meta t) = list_to_set names_meta) /\
  (lcFast obs gen = [] ->
   fast_call np_mean lcFast premeta gen obs
   = (_ ← unique_item_float (map obs_pixRA obs);
      _ ← unique_item_float (map obs_pixDec obs);
      _ ← unique_item (map obs_healpixID obs);
      Ok [])).
Proof.
  intros Hobs Hcut. split.
  - unfold cosmo_call.
    destruct (unique_first_nonempty (map obs_season obs)) as [seas ->].
    { destruct obs; [congruence|discriminate]. }
    destruct (unique_first_nonempty (map obs_healpixID obs)) as [hp ->].
    { destruct obs; [congruence|discriminate]. }
    destruct (unique_first_float_nonempty (map obs_pixRA obs)) as [pra ->].
    { destruct obs; [congruence|discriminate]. }
    destruct (unique_first_float_nonempty (map obs_pixDec obs)) as [pdec ->].
    { destruct obs; [congruence|discriminate]. }
    cbn [mbind result_bind]. rewrite Hcut. cbn [map length Nat.eqb].
    eexists. split; [reflexivity|]. split; [reflexivity|].
    split; [reflexivity|]. vm_compute. reflexivity.
  - intros Htab. unfold fast_call. rewrite Htab.
    destruct (unique_item_float (map obs_pixRA obs)); [|reflexivity].
    destruct (unique_item_float (map obs_pixDec obs)); [|reflexivity].
    destruct (unique_item (map obs_healpixID obs)); reflexivity.
Qed.

End EmptyMatch.

(** C5, witness: a season of which the window keeps no visit. *)
Lemma empty_match_witness :
  exists t : Table nat,
    cosmo_call (Spectrum := unit) (fun _ => 1.5%float) (fun x => x)
      (fun _ _ _ _ _ _ _ => []) (fun _ _ => tt) (fun _ _ => 1%float)
      (fun _ _ => []) 0.25 sn_example season_mostly_u = Ok [t] /\
    rows t = [] /\
    meta t !! "status" = Some (PInt (-1)).
Proof.
  destruct (empty_match (R := nat) (Spectrum := unit) (D := nat)
              (fun _ => 1.5%float) (fun x => x)
              (fun _ _ _ _ _ _ _ => []) (fun _ _ => tt) (fun _ _ => 1%float)
              (fun _ _ => []) 0.25 (fun _ _ => []) sn_example season_mostly_u
              fast_premeta_example fast_gen)
    as [(t & Hcall & Hrows & Hstatus & _) _].
  - discriminate.
  - reflexivity.
  - exists t. auto.
Defined.

(** C5, counterexample: the template backend, given a batch for which the
    combined result has no row, returns no table at all, where the
    specification has one table of status -1. *)
Lemma fast_call_no_table :
  fast_init [0%float] [0%float] fast_gen = Ok fast_premeta_example /\
  fast_call (D := nat) (fun _ => 1.5%float) (fun _ _ => [])
    fast_premeta_example fast_gen season_mostly_u = Ok [] /\
  length (transform (D := nat) fast_premeta_example []) = 0%nat.
Proof. repeat split; vm_compute; reflexivity. Qed.

(** ** The worker loop *)

Section WorkerFacts.

Context {R GenPar : Type}.
Variable float_repr : float -> string.
Variable simuLCs_one : list Obs -> Z -> GenPar -> result (list (Table R)).
Variable simuLCs_all : list Obs -> Z -> list GenPar -> result (list (Table R)).

(** Buffering does not show: the loop with its dumps every 20 tables,
    followed by the last dump, is one dump of the buffer and all the tables
    the backend returns, in order. *)
Lemma simuLoop_each_flush (e : Engine) (d : Disk R) obs seas
  (gen_params : list GenPar) iproc (buf : list (Table R)) (m : MetaLists)
  (tss : list (list (Table R))) :
  mapM (simuLCs_one obs seas) gen_params = Ok tss ->
  (r ← simuLoop_each float_repr simuLCs_one e d obs seas gen_params iproc
         buf m;
   if (0 <? length r.2)%nat
   then dump float_repr r.1.1.1 r.1.1.2 r.2 seas iproc r.1.2
   else Ok (r.1.1.1, r.1.1.2, r.1.2))
  = dump float_repr e d (buf ++ concat tss) seas iproc m.
Proof.
  revert e d buf m tss.
  induction gen_params as [|g rest IH]; intros e d buf m tss Hmap.
  - cbn in Hmap. apply Ok_inj in Hmap as <-. cbn. rewrite app_nil_r.
    destruct buf; reflexivity.
  - cbn [mapM] in Hmap. cbn [simuLoop_each].
    destruct (simuLCs_one obs seas g) as [lc|]; [|discriminate Hmap].
    cbn [mbind result_bind] in Hmap |- *. cbv zeta.
    destruct (mapM (simuLCs_one obs seas) rest) as [k|] eqn:Hk;
      [|discriminate Hmap].
    cbn in Hmap. apply Ok_inj in Hmap as <-.
    cbn [concat]. rewrite app_assoc.
    destruct (20 <=? length (buf ++ lc))%nat.
    + rewrite (dump_app float_repr e d (buf ++ lc) (concat k)).
      destruct (dump float_repr e d (buf ++ lc) seas iproc m) as [r|];
        [|reflexivity].
      cbn [mbind result_bind]. exact (IH r.1.1 r.1.2 [] r.2 k eq_refl).
    + exact (IH e d (buf ++ lc) m k eq_refl).
Qed.

(** A worker of the spectral backend writes what one dump of all its
    tables writes, starting from an empty accumulator. *)
Lemma simuLoop_spectral (e : Engine) (d : Disk R) obs seas
  (gen_params : list GenPar) iproc (tss : list (list (Table R))) :
  sn_fast e = false ->
  mapM (simuLCs_one obs seas) gen_params = Ok tss ->
  simuLoop float_repr simuLCs_one simuLCs_all e d obs seas gen_params iproc
  = dump float_repr e d (concat tss) seas iproc ∅.
Proof.
  intros Hfast Hmap. unfold simuLoop. rewrite Hfast.
  rewrite <- (simuLoop_each_flush e d obs seas gen_params iproc [] ∅ tss Hmap).
  destruct (simuLoop_each _ _ _ _ _ _ _ _ _ _) as [[[[e1 d1] m1] l1]|];
    reflexivity.
Qed.

(** A worker of the template backend dumps the tables of its one call. *)
Lemma simuLoop_template (e : Engine) (d : Disk R) obs seas
  (gen_params : list GenPar) iproc (list_lc : list (Table R)) :
  sn_fast e = true ->
  simuLCs_all obs seas gen_params = Ok list_lc ->
  simuLoop float_repr simuLCs_one simuLCs_all e d obs seas gen_params iproc
  = dump float_repr e d list_lc seas iproc ∅.
Proof.
  intros Hfast Hall. unfold simuLoop. rewrite Hfast, Hall.
  cbn [mbind result_bind]. destruct list_lc; reflexivity.
Qed.

End WorkerFacts.

(** ** Two remarks on the stores *)

(** A table that carries its own [SNID], as the tables of the spectral
    backend do, keeps it in the metadata row: [metadict.update(lc.meta)]
    overwrites the identity [dump] handed out. *)
Lemma metadict_of_own_SNID {R : Type} e snid index seas (lc : Table R) v :
  meta lc !! "SNID" = Some v ->
  metadict_of e snid index seas lc !! "SNID" = Some v.
Proof.
  intros H. unfold metadict_of, dict_update. now apply lookup_union_Some_l.
Qed.

Lemma metadata_SNID sn ra dec pix area seas ptime status :
  metadata sn ra dec pix area seas ptime status !! "SNID"
  = Some (PInt (sn_SNID sn)).
Proof. reflexivity. Qed.

(** A worker result with a field the store does not have cannot be merged
    into a store that is not empty. *)
Lemma merge_step_new_key :
  merge_step {[ "z" := [PFloat 0.3] ]} {[ "status" := [PInt 1] ]}
  = Raise KeyError.
Proof. vm_compute. reflexivity. Qed.

(** ** More on the writer *)

Section WriterMore.

Context {R : Type}.
Variable float_repr : float -> string.

(** Two flushes in a row do what one flush of both buffers does: the
    counter, the file and the accumulator are carried from one [dump] to
    the next. *)
Theorem dump_two_flushes e (d : Disk R) (l1 l2 : list (Table R)) seas j m :
  (r ← dump float_repr e d l1 seas j m;
   dump float_repr r.1.1 r.1.2 l2 seas j r.2)
  = dump float_repr e d (l1 ++ l2) seas j m.
Proof. symmetry. apply dump_app. Qed.

Lemma metadict_of_SNID e snid index seas (lc : Table R) :
  metadict_of e snid index seas lc !! "SNID"
  = Some (default (PInt snid) (meta lc !! "SNID")).
Proof.
  unfold metadict_of, dict_update.
  destruct (meta lc !! "SNID") as [v|] eqn:Hv.
  - now apply lookup_union_Some_l.
  - rewrite lookup_union_r by exact Hv. reflexivity.
Qed.

(** The [SNID] column of the summary gets the identity [dump] hands out only
    for a table without an [SNID] of its own; a table that has one in its
    metadata keeps it, and the identity handed out is not recorded. *)
Theorem writeLC_SNID_column K n e (d : Disk R) snid (lc : Table R) seas j
  (m : MetaLists) index file :
  storage_index float_repr (meta lc) (PInt seas) = Ok index ->
  lc_out e !! j = Some file ->
  dom (meta lc) = K ->
  accumulated K n m ->
  exists d' m',
    writeLC float_repr e d snid lc seas j m = Ok (d', m') /\
    m' !! "SNID"
    = Some (default [] (m !! "SNID")
            ++ [default (PInt snid) (meta lc !! "SNID")]).
Proof.
  intros Hidx Hfile HK Hacc.
  destruct (writeLC_ok float_repr K n e d snid lc seas j m index file
              Hidx Hfile HK Hacc) as (m' & Hw & _ & Hval).
  eexists _, m'. split; [exact Hw|].
  apply Hval, metadict_of_SNID.
Qed.

(** A table with a metadata key that a non-empty accumulator does not have
    makes [writeLC] raise [KeyError]. *)
Theorem writeLC_new_key e (d : Disk R) snid (lc : Table R) seas j
  (m : MetaLists) index file k :
  storage_index float_repr (meta lc) (PInt seas) = Ok index ->
  lc_out e !! j = Some file ->
  m <> ∅ ->
  k ∈ dom (meta lc) ->
  k ∉ dom m ->
  writeLC float_repr e d snid lc seas j m = Raise KeyError.
Proof.
  intros Hidx Hfile Hm Hk Hnk. unfold writeLC. rewrite Hidx. cbn.
  unfold getitem_nat. rewrite Hfile. cbn.
  unfold extend_meta, dict_is_empty.
  rewrite bool_decide_eq_false_2 by (intros H; now apply dom_empty_inv_L in H).
  unfold extend_lists. rewrite bool_decide_eq_false_2; [reflexivity|].
  intros Hsub. apply Hnk, Hsub. rewrite dom_fmap_L, dom_metadict_of.
  apply elem_of_union_l, Hk.
Qed.

(** A table that lacks a metadata key of a non-empty accumulator is
    accepted: the list of that key is left as it is while the lists of the
    table's keys grow, so the lists are no longer of one length. *)
Theorem writeLC_fewer_keys e (d : Disk R) snid (lc : Table R) seas j
  (m : MetaLists) index file k :
  storage_index float_repr (meta lc) (PInt seas) = Ok index ->
  lc_out e !! j = Some file ->
  m <> ∅ ->
  dom (meta lc) ∪ bookkeeping ⊆ dom m ->
  k ∉ dom (meta lc) ∪ bookkeeping ->
  exists d' m',
    writeLC float_repr e d snid lc seas j m = Ok (d', m') /\
    m' !! k = m !! k /\
    forall k' l, k' ∈ dom (meta lc) ∪ bookkeeping -> m !! k' = Some l ->
      exists v, m' !! k' = Some (l ++ [v]).
Proof.
  intros Hidx Hfile Hm Hsub Hk. unfold writeLC. rewrite Hidx. cbn.
  unfold getitem_nat. rewrite Hfile. cbn.
  unfold extend_meta, dict_is_empty.
  rewrite bool_decide_eq_false_2 by (intros H; now apply dom_empty_inv_L in H).
  unfold extend_lists. rewrite bool_decide_eq_true_2
    by (now rewrite dom_fmap_L, dom_metadict_of).
  cbn. eexists _, _. split; [reflexivity|]. split.
  - rewrite map_lookup_imap. destruct (m !! k) as [l|]; [|reflexivity]. cbn.
    rewrite lookup_fmap.
    assert (metadict_of e snid index seas lc !! k = None) as ->.
    { apply not_elem_of_dom. now rewrite dom_metadict_of. }
    cbn. now rewrite app_nil_r.
  - intros k' l Hk' Hl. rewrite map_lookup_imap, Hl. cbn.
    rewrite <- (dom_metadict_of e snid index seas) in Hk'.
    apply elem_of_dom in Hk' as [v Hv]. exists v.
    now rewrite lookup_fmap, Hv.
Qed.

End WriterMore.

Lemma writeLC_SNID_column_witness :
  (fun r => r.2 !! "SNID")
    <$> writeLC digits_repr engine_prepared (∅ : Disk nat) 11 table_two_rows
          1 1 ∅
  = Ok (Some [PInt 100]).
Proof.
  edestruct (writeLC_SNID_column digits_repr (list_to_set names_meta) 0
              engine_prepared (∅ : Disk nat) 11 table_two_rows 1 1 ∅)
    as (d' & m' & Hw & Hcol).
  - vm_compute. reflexivity.
  - vm_compute. reflexivity.
  - vm_compute. reflexivity.
  - left. split; reflexivity.
  - rewrite Hw. cbn [fmap result_fmap snd]. rewrite Hcol. reflexivity.
Defined.

Lemma writeLC_new_key_witness :
  writeLC digits_repr engine_prepared (∅ : Disk nat) 12 table_fast_like 1 1
    result_first = Raise KeyError /\
  dom result_first = {[ "z"; "status" ]}.
Proof.
  split; [|vm_compute; reflexivity].
  eapply (writeLC_new_key digits_repr engine_prepared (∅ : Disk nat) 12
            table_fast_like 1 1 result_first) with (k := "x1"%string).
  - vm_compute. reflexivity.
  - vm_compute. reflexivity.
  - intros H. apply (f_equal (fun m : MetaLists => m !! "z")) in H.
    vm_compute in H. discriminate H.
  - apply (bool_decide_unpack _). vm_compute. exact I.
  - apply (bool_decide_unpack _). vm_compute. exact I.
Defined.

Lemma writeLC_fewer_keys_witness :
  (fun r => (length <$> r.2 !! "status", length <$> r.2 !! "z"))
    <$> writeLC digits_repr engine_prepared (∅ : Disk nat) 12 table_fast_like
          1 1 meta_after_one
  = Ok (Some 1%nat, Some 2%nat).
Proof.
  edestruct (writeLC_fewer_keys digits_repr engine_prepared (∅ : Disk nat) 12
               table_fast_like 1 1 meta_after_one) with (k := "status"%string)
    as (d' & m' & Hw & Hk & Hgrow).
  - vm_compute. reflexivity.
  - vm_compute. reflexivity.
  - intros H. apply (f_equal (fun m : MetaLists => m !! "z")) in H.
    vm_compute in H. discriminate H.
  - apply (bool_decide_unpack _). vm_compute. exact I.
  - apply (bool_decide_unpack _). vm_compute. exact I.
  - rewrite Hw. cbn [fmap result_fmap snd]. rewrite Hk.
    destruct (Hgrow "z" [PFloat 0.3]) as [v Hv].
    + apply (bool_decide_unpack _). vm_compute. exact I.
    + vm_compute. reflexivity.
    + rewrite Hv. vm_compute. reflexivity.
Defined.

(** ** Output files *)

Lemma append_cancel_l (a x y : string) : a +:+ x = a +:+ y -> x = y.
Proof. induction a as [|c a IH]; cbn; [auto|]. intros [= H]. auto. Qed.

Lemma tag_suffix_inj (i j : nat) :
  str_of_int (Z.of_nat i) +:+ ".hdf5" = str_of_int (Z.of_nat j) +:+ ".hdf5" ->
  i = j.
Proof.
  intros H.
  apply (cut_at_sep "." _ _ "hdf5" "hdf5") in H as [H _];
    try (apply str_of_int_no_char; reflexivity).
  apply str_of_int_inj in H. lia.
Qed.

(** [prepareSave] leaves the tag with two file names whose files do not
    exist, the counter at [10^iproc] and an empty store; the other files and
    the counters, stores and file names of the other tags are as before. *)
Theorem prepareSave_fresh {R : Type} (e : Engine) (d : Disk R) (iproc : nat) :
  exists simu lc,
    simu_out (prepareSave e d iproc).1 !! iproc = Some simu /\
    lc_out (prepareSave e d iproc).1 !! iproc = Some lc /\
    (prepareSave e d iproc).2 !! simu = None /\
    (prepareSave e d iproc).2 !! lc = None /\
    (forall f, f <> simu -> f <> lc ->
               (prepareSave e d iproc).2 !! f = d !! f) /\
    SNID (prepareSave e d iproc).1 !! iproc = Some (10 ^ Z.of_nat iproc) /\
    sn_meta (prepareSave e d iproc).1 !! iproc = Some ∅ /\
    (forall j, j <> iproc ->
       SNID (prepareSave e d iproc).1 !! j = SNID e !! j /\
       sn_meta (prepareSave e d iproc).1 !! j = sn_meta e !! j /\
       lc_out (prepareSave e d iproc).1 !! j = lc_out e !! j /\
       simu_out (prepareSave e d iproc).1 !! j = simu_out e !! j).
Proof.
  unfold prepareSave, check_del. cbn.
  eexists _, _. split; [apply lookup_insert_eq|].
  split; [apply lookup_insert_eq|].
  split.
  { rewrite lookup_delete. case_decide; [reflexivity|apply lookup_delete_eq]. }
  split; [apply lookup_delete_eq|].
  split.
  { intros f H1 H2. now rewrite !lookup_delete_ne by congruence. }
  split; [apply lookup_insert_eq|].
  split; [apply lookup_insert_eq|].
  intros j Hj. now rewrite !lookup_insert_ne by congruence.
Qed.

(** Two process tags of one production get different files, for the light
    curves and for the summaries, and no light-curve file is a summary
    file: a tag that prepares its files removes none of another tag. *)
Theorem prepareSave_files_distinct {R : Type} (e1 e2 : Engine)
  (d1 d2 : Disk R) (i j : nat) :
  outdir e1 = outdir e2 -> prodid e1 = prodid e2 -> i <> j ->
  lc_out (prepareSave e1 d1 i).1 !! i <> lc_out (prepareSave e2 d2 j).1 !! j /\
  simu_out (prepareSave e1 d1 i).1 !! i
  <> simu_out (prepareSave e2 d2 j).1 !! j /\
  lc_out (prepareSave e1 d1 i).1 !! i
  <> simu_out (prepareSave e2 d2 j).1 !! j.
Proof.
  intros Ho Hp Hij. unfold prepareSave. cbn.
  rewrite !lookup_insert_eq, Ho, Hp.
  split; [|split]; intros [= H]; apply append_cancel_l in H.
  - apply (append_cancel_l "/LC_") in H. apply append_cancel_l in H.
    apply (append_cancel_l "_") in H. now apply tag_suffix_inj in H.
  - apply (append_cancel_l "/Simu_") in H. apply append_cancel_l in H.
    apply (append_cancel_l "_") in H. now apply tag_suffix_inj in H.
  - discriminate H.
Qed.

Lemma prepareSave_files_distinct_witness :
  lc_out (prepareSave (R := nat) engine_example ∅ 1).1 !! 1%nat
  = Some "out/LC_prod_1.hdf5"%string /\
  lc_out (prepareSave (R := nat) engine_example ∅ 2).1 !! 2%nat
  = Some "out/LC_prod_2.hdf5"%string /\
  lc_out (prepareSave (R := nat) engine_example ∅ 1).1 !! 1%nat
  <> lc_out (prepareSave (R := nat) engine_example ∅ 2).1 !! 2%nat.
Proof.
  split; [vm_compute; reflexivity|]. split; [vm_compute; reflexivity|].
  apply (prepareSave_files_distinct (R := nat) engine_example engine_example
           ∅ ∅ 1 2); [reflexivity|reflexivity|lia].
Defined.

(** ** The band filter *)

Lemma last_char_nonempty (s : string) :
  s <> EmptyString -> exists c, last_char s = Ok c.
Proof.
  induction s as [|a s IH]; [congruence|]. intros _.
  destruct s as [|b s]; [cbn; eauto|].
  destruct IH as [c Hc]; [discriminate|]. exists c. exact Hc.
Qed.

(** With no empty band name in the season, the filter of [run] keeps, in
    order, exactly the visits whose band name does not end in [u]. *)
Theorem remove_u_keeps (obs : list Obs) :
  Forall (fun o => obs_filter o <> EmptyString) obs ->
  remove_u obs
  = Ok (List.filter (fun o => negb (ends_with_u (obs_filter o))) obs).
Proof.
  induction 1 as [|o rest Ho _ IH]; [reflexivity|].
  cbn [remove_u List.filter]. unfold ends_with_u.
  destruct (last_char_nonempty _ Ho) as [c ->]. rewrite IH. cbn.
  destruct (Ascii.eqb c "u"); reflexivity.
Qed.

Lemma remove_u_keeps_witness :
  remove_u season_mostly_u
  = Ok [visit "g" 59850; visit "g" 59852; visit "g" 59854; visit "g" 59856].
Proof.
  rewrite (remove_u_keeps season_mostly_u);
    [reflexivity|repeat constructor; discriminate].
Defined.

(** A visit with an empty band name makes the filter raise [IndexError]. *)
Theorem remove_u_empty_band (obs : list Obs) :
  Exists (fun o => obs_filter o = EmptyString) obs ->
  remove_u obs = Raise IndexError.
Proof.
  induction 1 as [o rest Ho|o rest _ IH]; cbn [remove_u].
  - rewrite Ho. reflexivity.
  - rewrite IH. destruct (last_char (obs_filter o)) as [c|e] eqn:Hl;
      [reflexivity|].
    assert (e = IndexError) as ->; [|reflexivity].
    destruct (obs_filter o) as [|a s]; [cbn in Hl; congruence|].
    destruct (last_char_nonempty (String a s)) as [c Hc]; [discriminate|].
    congruence.
Qed.

Lemma remove_u_empty_band_witness :
  remove_u [visit "g" 59850; visit "" 59851] = Raise IndexError.
Proof.
  apply remove_u_empty_band. right. left. reflexivity.
Defined.

(** ** Shard sizes *)

Section ShardSizes.

Local Open Scope nat_scope.

Context {A : Type}.



(** One worker, as the template backend always has, gets the whole grid;
    with no worker there is no shard. *)
Theorem shards_one_or_none (gen_params : list A) :
  shards gen_params 1 = [gen_params] /\ shards gen_params 0 = [].
Proof.
  split; [|reflexivity]. rewrite shards_unfold. cbn [seq map].
  rewrite Nat.mul_0_l, Nat.mul_1_l, !Nat.div_1_r. unfold slice.
  rewrite drop_0, Nat.sub_0_r. f_equal. apply take_ge. lia.
Qed.

End ShardSizes.


(** ** More on the season loop *)

Lemma set_index_hdf5_same (e : Engine) : set_index_hdf5 e (index_hdf5 e) = e.
Proof. destruct e; reflexivity. Qed.

Lemma spawn_keys {R GenPar : Type} (float_repr : float -> string)
  (one : list Obs -> Z -> GenPar -> result (list (Table R)))
  (all : list Obs -> Z -> list GenPar -> result (list (Table R)))
  (e : Engine) obs seas iproc (parts : list (list GenPar)) :
  forall (d : Disk R) i q,
    spawn float_repr one all e d obs seas parts iproc i = Ok q ->
    q.2.*1 = seq i (length parts).
Proof.
  induction parts as [|part rest IH]; intros d i q Hq; cbn in Hq.
  - apply Ok_inj in Hq as <-. reflexivity.
  - destruct (simuLoop float_repr one all e d obs seas part iproc) as [r|];
      [|discriminate Hq].
    cbn in Hq.
    destruct (spawn float_repr one all e r.1.2 obs seas rest iproc (S i))
      as [q'|] eqn:Hs; [|discriminate Hq].
    cbn in Hq. apply Ok_inj in Hq as <-. cbn. f_equal. exact (IH _ _ _ Hs).
Qed.

Lemma collect_permutation (l1 l2 : list (nat * MetaLists)) :
  NoDup l1.*1 -> l2 ≡ₚ l1 -> collect l2 = collect l1.
Proof.
  intros Hnd Hperm.
  assert (NoDup l2.*1) as Hnd2 by now rewrite Hperm.
  rewrite (collect_list_to_map _ Hnd), (collect_list_to_map _ Hnd2).
  now apply list_to_map_proper.
Qed.

(** The season does not depend on the order in which the workers' messages
    reach the parent: two queues that deliver the same messages in
    different orders leave the same engine and files. *)
Theorem simuSeason_arrival_independent {R GenPar : Type}
  (float_repr : float -> string)
  (one : list Obs -> Z -> GenPar -> result (list (Table R)))
  (all : list Obs -> Z -> list GenPar -> result (list (Table R)))
  (Params : list Obs -> option (list GenPar))
  (arrival1 arrival2 : list (nat * MetaLists) -> list (nat * MetaLists))
  (e : Engine) (d : Disk R) obs seas iproc :
  (forall l, arrival1 l ≡ₚ l) -> (forall l, arrival2 l ≡ₚ l) ->
  simuSeason float_repr one all Params arrival1 e d obs seas iproc
  = simuSeason float_repr one all Params arrival2 e d obs seas iproc.
Proof.
  intros H1 H2. unfold simuSeason. destruct (Params obs) as [gen|]; [|reflexivity].
  destruct (spawn float_repr one all e d obs seas _ iproc 0) as [q|] eqn:Hq;
    [|reflexivity].
  cbn [mbind result_bind].
  assert (NoDup q.2.*1) as Hnd.
  { rewrite (spawn_keys _ _ _ _ _ _ _ _ _ _ _ Hq). apply NoDup_seq. }
  now rewrite (collect_permutation _ _ Hnd (H1 q.2)),
    (collect_permutation _ _ Hnd (H2 q.2)).
Qed.

Lemma simuSeason_arrival_independent_witness :
  simuSeason (R := nat) (GenPar := unit) digits_repr
    (fun _ _ _ => Ok [table_fast_like]) (fun _ _ _ => Ok [])
    (fun _ => Some [tt; tt; tt]) (fun q => q) engine_prepared ∅
    season_mostly_u 1 1
  = simuSeason (R := nat) (GenPar := unit) digits_repr
      (fun _ _ _ => Ok [table_fast_like]) (fun _ _ _ => Ok [])
      (fun _ => Some [tt; tt; tt]) reverse engine_prepared ∅
      season_mostly_u 1 1.
Proof.
  apply simuSeason_arrival_independent.
  - intros l. reflexivity.
  - intros l. apply reverse_Permutation.
Defined.

Section SeasonMore.

Context {R GenPar : Type}.
Variable float_repr : float -> string.
Variable simuLCs_one : list Obs -> Z -> GenPar -> result (list (Table R)).
Variable simuLCs_all : list Obs -> Z -> list GenPar -> result (list (Table R)).
Variable Params : list Obs -> option (list GenPar).
Variable arrival : list (nat * MetaLists) -> list (nat * MetaLists).
Variable seasoncalc : list Obs -> list Obs.
Variable stacker : option (list Obs -> list Obs).

Lemma run_season_skip (e : Engine) (d : Disk R) obs seas iproc :
  skipped obs seas ->
  run_season float_repr simuLCs_one simuLCs_all Params arrival e d obs seas
    iproc
  = Ok (set_index_hdf5 e (index_hdf5 e + 10000 * (seas - 1)), d).
Proof.
  intros (kept & Hkept & Hlen).
  assert ((5 <=? length kept)%nat = false) as Hb by (apply Nat.leb_gt; lia).
  unfold run_season. rewrite Hkept. unfold mbind, result_bind.
  now rewrite Hb.
Qed.

Lemma run_seasons_skipped (e : Engine) (d : Disk R) obs seasons iproc :
  Forall (skipped obs) seasons ->
  exists v,
    run_seasons float_repr simuLCs_one simuLCs_all Params arrival e d obs
      seasons iproc
    = Ok (set_index_hdf5 e v, d).
Proof.
  intros H. revert e. induction H as [|seas rest Hs _ IH]; intros e.
  - exists (index_hdf5 e). cbn. now rewrite set_index_hdf5_same.
  - cbn [run_seasons]. rewrite (run_season_skip e d obs seas iproc Hs).
    cbn [mbind result_bind fst snd].
    destruct (IH (set_index_hdf5 e (index_hdf5 e + 10000 * (seas - 1))))
      as [v Hv].
    exists v. exact Hv.
Qed.

(** A batch in which every season has fewer than 5 visits outside the [u]
    band runs without error and writes nothing: the files are those the
    first lines of [run] leave (the two files of a tag seen for the first
    time are removed), and the store of the tag is empty afterwards. The
    backend is not called. *)
Theorem run_all_skipped (e : Engine) (d : Disk R) (obs : list Obs)
  (iproc : nat) (isav : Z) :
  Forall (skipped (prepared_obs seasoncalc stacker obs))
    (seasons_of e (prepared_obs seasoncalc stacker obs)) ->
  unique_item (map obs_healpixID (prepared_obs seasoncalc stacker obs))
  = Ok isav ->
  (forall k m, sn_meta e !! k = Some m -> m = ∅) ->
  exists e',
    run float_repr simuLCs_one simuLCs_all Params arrival seasoncalc stacker
      e d obs iproc
    = Ok (e', disk_after_prepare e d iproc) /\
    sn_meta e' !! iproc = Some ∅.
Proof.
  intros Hskip Hpix Hempty. unfold run, disk_after_prepare.
  fold (prepared_obs seasoncalc stacker obs).
  set (obs' := prepared_obs seasoncalc stacker obs) in *.
  assert (Hgo : forall e1 (d1 : Disk R),
             season e1 = season e ->
             (forall k m, sn_meta e1 !! k = Some m -> m = ∅) ->
             exists e',
               (r ← run_seasons float_repr simuLCs_one simuLCs_all Params
                      arrival (set_field e1 "unknown" 0) d1 obs'
                      (match season (set_field e1 "unknown" 0) with
                       | None => np_unique (map obs_season obs')
                       | Some l => l
                       end) iproc;
                isav ← unique_item (map obs_healpixID obs');
                d3 ← save_metadata r.1 r.2 isav;
                Ok (set_sn_meta r.1 (<[iproc := ∅]> (sn_meta r.1)), d3))
               = Ok (e', d1) /\ sn_meta e' !! iproc = Some ∅).
  { intros e1 d1 Hseas Hm.
    assert (Forall (skipped obs')
              (match season (set_field e1 "unknown" 0) with
               | None => np_unique (map obs_season obs')
               | Some l => l
               end)) as Hsk.
    { cbn [season set_field]. rewrite Hseas. exact Hskip. }
    destruct (run_seasons_skipped (set_field e1 "unknown" 0) d1 obs' _ iproc
                Hsk) as [v ->].
    cbn [mbind result_bind fst snd]. rewrite Hpix. cbn [mbind result_bind].
    rewrite save_metadata_nothing by exact Hm.
    eexists. split; [reflexivity|]. cbn. apply lookup_insert_eq. }
  destruct (nprocdict e !! iproc) as [t|].
  - exact (Hgo e d eq_refl Hempty).
  - destruct (save_status e) eqn:Hsave; cbn [save_status set_nprocdict].
    + rewrite Hsave. apply Hgo; [reflexivity|].
      intros k m. cbn. rewrite lookup_insert. case_decide; [congruence|].
      apply Hempty.
    + rewrite Hsave.
      exact (Hgo (set_nprocdict e (<[iproc := iproc]> (nprocdict e))) d
               eq_refl Hempty).
Qed.

(** With no worker ([nproc] is 0, spectral backend) a season simulates
    nothing and raises nothing, whatever the grid. *)
Theorem simuSeason_no_worker (e : Engine) (d : Disk R) obs seas iproc :
  nprocs e = 0%nat -> sn_fast e = false ->
  simuSeason float_repr simuLCs_one simuLCs_all Params arrival e d obs seas
    iproc = Ok (e, d).
Proof.
  intros Hn Hf. unfold simuSeason. destruct (Params obs); [|reflexivity].
  rewrite Hn, Hf. reflexivity.
Qed.

End SeasonMore.

Lemma run_all_skipped_witness :
  (fun r => (r.2, sn_meta r.1 !! 1%nat))
    <$> run (R := nat) (GenPar := unit) digits_repr
          (fun _ _ _ => Raise KeyError) (fun _ _ _ => Raise KeyError)
          (fun _ => Some [tt]) (fun q => q) (fun o => o) None
          engine_example ∅ season_mostly_u 1
  = Ok (∅, Some ∅).
Proof.
  destruct (run_all_skipped (R := nat) (GenPar := unit) digits_repr
              (fun _ _ _ => Raise KeyError) (fun _ _ _ => Raise KeyError)
              (fun _ => Some [tt]) (fun q => q) (fun o => o) None
              engine_example ∅ season_mostly_u 1 7)
    as (e' & Hrun & Hm).
  - repeat constructor.
    exists [visit "g" 59850; visit "g" 59852; visit "g" 59854;
            visit "g" 59856].
    split; [vm_compute; reflexivity|cbn; lia].
  - vm_compute. reflexivity.
  - intros k m H. vm_compute in H. discriminate H.
  - rewrite Hrun. cbn [fmap result_fmap fst snd]. rewrite Hm.
    vm_compute. reflexivity.
Defined.

Lemma simuSeason_no_worker_witness :
  simuSeason (R := nat) (GenPar := unit) digits_repr
    (fun _ _ _ => Raise KeyError) (fun _ _ _ => Raise KeyError)
    (fun _ => Some [tt; tt]) (fun q => q) engine_no_worker ∅
    season_mostly_u 1 1
  = Ok (engine_no_worker, ∅).
Proof.
  apply (simuSeason_no_worker (R := nat) (GenPar := unit)); reflexivity.
Defined.

(** ** The summary *)

Section SummaryFacts.

Context {R : Type}.

Lemma save_metadata_fold (e : Engine) isav j (m : MetaLists) file
  (l : list (nat * MetaLists)) :
  simu_out e !! j = Some file -> m <> ∅ ->
  NoDup l.*1 ->
  (forall k m', (k, m') ∈ l -> k <> j -> m' = ∅) ->
  (forall m', (j, m') ∈ l -> m' = m) ->
  forall d : Disk R,
    foldr
      (fun kv acc =>
         d' ← acc;
         if dict_is_empty kv.2 then Ok d'
         else
           file ← getitem_nat (simu_out e) kv.1;
           Ok (hdf5_append d' file ("summary_" +:+ str_of_int isav)
                 (SummaryEntry kv.2)))
      (Ok d) l
    = Ok (if bool_decide (j ∈ l.*1)
          then hdf5_append d file ("summary_" +:+ str_of_int isav)
                 (SummaryEntry m)
          else d).
Proof.
  intros Hfile Hm. induction l as [|[k m'] l IH]; intros Hnd Hother Hj d.
  - reflexivity.
  - cbn [fmap list_fmap fst] in Hnd. apply NoDup_cons in Hnd as [Hk Hnd].
    cbn [foldr]. rewrite IH; [|exact Hnd| |].
    2:{ intros k0 m0 Hin. apply Hother. now right. }
    2:{ intros m0 Hin. apply Hj. now right. }
    cbn [mbind result_bind snd fst]. unfold dict_is_empty.
    destruct (decide (k = j)) as [->|Hkj].
    + rewrite (Hj m') by now left.
      rewrite bool_decide_eq_false_2
        by (intros H; now apply dom_empty_inv_L in H).
      unfold getitem_nat. rewrite Hfile. cbn.
      rewrite (bool_decide_eq_false_2 (j ∈ l.*1)) by exact Hk.
      rewrite bool_decide_eq_true_2 by (cbn; now left).
      reflexivity.
    + rewrite (Hother k m') by (now left || exact Hkj).
      rewrite bool_decide_eq_true_2 by apply dom_empty_L.
      rewrite (bool_decide_ext (j ∈ ((k, ∅) :: l).*1) (j ∈ l.*1));
        [reflexivity|].
      cbn. rewrite elem_of_cons.
      split; [intros [?|?]; [congruence|assumption]|auto].
Qed.

(** When the store of one tag is not empty and the others are,
    [save_metadata] adds exactly one entry, [summary_<isav>] with that
    store, to the summary file of the tag; the other files are untouched. *)
Theorem save_metadata_one_store (e : Engine) (d : Disk R) isav j
  (m : MetaLists) file :
  sn_meta e !! j = Some m -> m <> ∅ ->
  (forall k m', k <> j -> sn_meta e !! k = Some m' -> m' = ∅) ->
  simu_out e !! j = Some file ->
  save_metadata e d isav
  = Ok (hdf5_append d file ("summary_" +:+ str_of_int isav) (SummaryEntry m)).
Proof.
  intros Hj Hm Hother Hfile. unfold save_metadata.
  rewrite (save_metadata_fold e isav j m file _ Hfile Hm).
  - rewrite bool_decide_eq_true_2; [reflexivity|].
    apply list_elem_of_fmap. exists (j, m). split; [reflexivity|].
    now apply elem_of_map_to_list.
  - apply NoDup_fst_map_to_list.
  - intros k m' Hin Hk. apply elem_of_map_to_list in Hin. eauto.
  - intros m' Hin. apply elem_of_map_to_list in Hin. congruence.
Qed.

(** A non-empty store of a tag without a summary file ([prepareSave] did
    not run for it) makes [save_metadata] raise [KeyError]. *)
Theorem save_metadata_no_file (e : Engine) (d : Disk R) isav j
  (m : MetaLists) :
  sn_meta e = {[ j := m ]} -> m <> ∅ -> simu_out e !! j = None ->
  save_metadata e d isav = Raise KeyError.
Proof.
  intros Hs Hm Hfile. unfold save_metadata. rewrite Hs, map_to_list_singleton.
  cbn. unfold dict_is_empty.
  rewrite bool_decide_eq_false_2 by (intros H; now apply dom_empty_inv_L in H).
  unfold getitem_nat. now rewrite Hfile.
Qed.

End SummaryFacts.

Lemma save_metadata_one_store_witness :
  save_metadata (R := nat) engine_with_store ∅ 7
  = Ok {[ "out/Simu_prod_1.hdf5"%string
          := [("summary_7"%string, SummaryEntry result_first)] ]}.
Proof.
  rewrite (save_metadata_one_store (R := nat) engine_with_store ∅ 7 1
             result_first "out/Simu_prod_1.hdf5").
  - vm_compute. reflexivity.
  - vm_compute. reflexivity.
  - intros H. apply (f_equal (fun m : MetaLists => m !! "z")) in H.
    vm_compute in H. discriminate H.
  - intros k m' Hk H. cbn in H. rewrite lookup_insert_ne in H by congruence.
    unfold engine_prepared, prepareSave in H. cbn in H.
    rewrite lookup_insert_ne in H by congruence.
    rewrite lookup_empty in H. discriminate H.
  - vm_compute. reflexivity.
Defined.

Lemma save_metadata_no_file_witness :
  save_metadata (R := nat)
    (set_sn_meta engine_example {[ 1%nat := result_first ]}) ∅ 7
  = Raise KeyError.
Proof.
  apply (save_metadata_no_file (R := nat) _ ∅ 7 1 result_first).
  - reflexivity.
  - intros H. apply (f_equal (fun m : MetaLists => m !! "z")) in H.
    vm_compute in H. discriminate H.
  - reflexivity.
Defined.

(** ** More on the spectral backend *)

Lemma insert_sorted_length x l :
  length (insert_sorted x l) = S (length l).
Proof.
  induction l as [|y l IH]; cbn; [reflexivity|].
  destruct (x <=? y)%float; cbn; [reflexivity|]. now rewrite IH.
Qed.

Lemma sort_floats_length l : length (sort_floats l) = length l.
Proof.
  unfold sort_floats. induction l as [|x l IH]; cbn [foldr]; [reflexivity|].
  rewrite insert_sorted_length, IH. reflexivity.
Qed.

Lemma dom_dict_zip {V : Type} (names : list string) (vals : list V) :
  length names = length vals ->
  dom (dict_zip names vals) = list_to_set names.
Proof.
  revert vals. induction names as [|n names IH]; intros [|v vals] Hlen;
    try discriminate Hlen; cbn [dict_zip].
  - now rewrite dom_empty_L.
  - rewrite dom_union_L, dom_singleton_L, IH by (now injection Hlen).
    cbn [list_to_set]. apply (comm_L (∪)).
Qed.

Lemma dom_metadata sn ra dec pix area seas ptime status :
  dom (metadata sn ra dec pix area seas ptime status)
  = list_to_set names_meta.
Proof. unfold metadata. now apply dom_dict_zip. Qed.

Section CosmoMore.

Context {R Spectrum : Type}.
Variable np_mean : list float -> float.
Variable log10 : float -> float.
Variable cutoff :
  list Obs -> float -> float -> float -> float -> float -> float -> list Obs.
Variable SN_flux : CosmoSN -> float -> Spectrum.
Variable calcFlux : Spectrum -> string -> float.
Variable photometry : CosmoSN -> list FluxRow -> list R.
Variable ptime : float.

(** After line 292 no integrated flux is negative, and there is one flux
    per row of the frame when the frame and the sorted times have one
    length. *)
Theorem int_fluxes_not_negative (sn : CosmoSN) (sorted_mjd : list float)
  (lcdf : list LcdfRow) :
  Forall (fun f => (f <? 0)%float = false)
    (int_fluxes SN_flux calcFlux sn sorted_mjd lcdf) /\
  length (int_fluxes SN_flux calcFlux sn sorted_mjd lcdf)
  = Nat.min (length sorted_mjd) (length lcdf).
Proof.
  unfold int_fluxes. split.
  - apply Forall_fmap, Forall_forall. intros f _. cbn. unfold clamp_flux.
    destruct (f <? 0)%float eqn:Hf; [reflexivity|exact Hf].
  - now rewrite length_map, length_zip_with.
Qed.

Lemma int_fluxes_frame_length (sn : CosmoSN) (kept : list Obs) :
  length
    (zip_with (fun (r : LcdfRow) (f : float) => (r, f)) (map outvals kept)
       (int_fluxes SN_flux calcFlux sn (sort_floats (map obs_mjd kept))
          (map outvals kept)))
  = length kept.
Proof.
  unfold int_fluxes.
  rewrite length_zip_with, !length_map, length_zip_with, sort_floats_length,
    !length_map.
  lia.
Qed.

(** On a batch with visits, [__call__] returns exactly one table with the
    twenty metadata fields. When the window keeps no visit the table has no
    row and status -1; otherwise it has status 1 and its rows are computed
    from one flux row per visit kept. *)
Theorem cosmo_call_one_table (sn : CosmoSN) (obs : list Obs) :
  obs <> [] ->
  exists t,
    cosmo_call np_mean log10 cutoff SN_flux calcFlux photometry ptime sn obs
    = Ok [t] /\
    dom (meta t) = list_to_set names_meta /\
    ((cutoff obs (sn_daymax sn) (sn_z sn) (sn_min_rf_phase sn)
        (sn_max_rf_phase sn) (sn_blue_cutoff sn) (sn_red_cutoff sn) = [] /\
      rows t = [] /\ meta t !! "status" = Some (PInt (-1)))
     \/
     (exists flux_rows,
        length flux_rows
        = length (cutoff obs (sn_daymax sn) (sn_z sn) (sn_min_rf_phase sn)
                    (sn_max_rf_phase sn) (sn_blue_cutoff sn)
                    (sn_red_cutoff sn)) /\
        flux_rows <> [] /\
        rows t = photometry sn flux_rows /\
        meta t !! "status" = Some (PInt 1))).
Proof.
  intros Hobs. unfold cosmo_call.
  destruct (unique_first_nonempty (map obs_season obs)) as [seas ->].
  { destruct obs; [congruence|discriminate]. }
  destruct (unique_first_nonempty (map obs_healpixID obs)) as [hp ->].
  { destruct obs; [congruence|discriminate]. }
  destruct (unique_first_float_nonempty (map obs_pixRA obs)) as [pra ->].
  { destruct obs; [congruence|discriminate]. }
  destruct (unique_first_float_nonempty (map obs_pixDec obs)) as [pdec ->].
  { destruct obs; [congruence|discriminate]. }
  cbn [mbind result_bind]. cbv zeta.
  destruct (cutoff obs (sn_daymax sn) (sn_z sn) (sn_min_rf_phase sn)
              (sn_max_rf_phase sn) (sn_blue_cutoff sn) (sn_red_cutoff sn))
    as [|o kept'] eqn:Hkept.
  - cbn [map length Nat.eqb]. eexists. split; [reflexivity|].
    split; [apply dom_metadata|]. left. auto.
  - rewrite (int_fluxes_frame_length sn (o :: kept')), length_map.
    cbn [length Nat.eqb].
    eexists. split; [reflexivity|]. split; [apply dom_metadata|].
    right. eexists. split; [|split; [|split; reflexivity]].
    + rewrite length_map. apply int_fluxes_frame_length.
    + intros H. apply (f_equal length) in H.
      rewrite length_map, int_fluxes_frame_length in H.
      discriminate H.
Qed.

(** An empty batch makes [__call__] raise [IndexError], at
    [np.unique(obs['season'])[0]]. *)
Theorem cosmo_call_empty_batch (sn : CosmoSN) :
  cosmo_call np_mean log10 cutoff SN_flux calcFlux photometry ptime sn []
  = Raise IndexError.
Proof. reflexivity. Qed.

End CosmoMore.

Lemma cosmo_call_one_table_witness :
  (fun l => map (fun t : Table nat => (rows t, meta t !! "status")) l)
    <$> cosmo_call (Spectrum := unit) (fun _ => 1.5%float) (fun x => x)
          (fun o _ _ _ _ _ _ => o) (fun _ _ => tt) (fun _ _ => 1%float)
          (fun _ l => map (fun _ => 0%nat) l) 0.25 sn_example season_mostly_u
  = Ok [([0; 0; 0; 0; 0; 0; 0]%nat, Some (PInt 1))].
Proof.
  destruct (cosmo_call_one_table (R := nat) (Spectrum := unit)
              (fun _ => 1.5%float) (fun x => x)
              (fun o _ _ _ _ _ _ => o) (fun _ _ => tt) (fun _ _ => 1%float)
              (fun _ l => map (fun _ => 0%nat) l) 0.25 sn_example
              season_mostly_u)
    as (t & Hcall & _ & [(Hcut & _)|(fr & Hlen & _ & Hrows & Hstatus)]).
  - discriminate.
  - discriminate Hcut.
  - rewrite Hcall. cbn [fmap result_fmap map]. rewrite Hrows, Hstatus.
    do 3 f_equal. cbn in Hlen.
    do 8 (destruct fr as [|? fr]; try discriminate Hlen). reflexivity.
Defined.

(** ** More on the template backend *)

Lemma forallb_Forall {A : Type} (f : A -> bool) (l : list A) :
  forallb f l = true -> Forall (fun y => f y = true) l.
Proof.
  induction l as [|y l IH]; cbn; intros H; [constructor|].
  apply andb_true_iff in H as [H1 H2]. constructor; auto.
Qed.

Lemma unique_item_float_inv (l : list float) (x : float) :
  unique_item_float l = Ok x ->
  exists rest, l = x :: rest /\ Forall (fun y => (x =? y)%float = true) rest.
Proof.
  destruct l as [|y rest]; cbn; [discriminate|].
  destruct (forallb _ rest) eqn:Hall; [|discriminate].
  intros H. apply Ok_inj in H as ->. exists rest. split; [reflexivity|].
  now apply forallb_Forall.
Qed.

Lemma unique_item_float_cases (l : list float) :
  (exists x, unique_item_float l = Ok x)
  \/ unique_item_float l = Raise ValueError.
Proof.
  destruct l as [|y rest]; cbn; [auto|]. destruct (forallb _ rest); eauto.
Qed.





(** [__init__] only succeeds on a shard with at least one generation
    parameter whose four perturbations are the same for all of them; the
    shared metadata then hold these perturbations, and -1 for [x0]. *)
Theorem fast_init_uniform (x1s colors : list float) (gen : list FastGenPar)
  (premeta : gmap string pyval) :
  fast_init x1s colors gen = Ok premeta ->
  exists g rest,
    gen = g :: rest /\
    Forall (fun h =>
              (fg_epsilon_x0 g =? fg_epsilon_x0 h)%float = true /\
              (fg_epsilon_x1 g =? fg_epsilon_x1 h)%float = true /\
              (fg_epsilon_color g =? fg_epsilon_color h)%float = true /\
              (fg_epsilon_daymax g =? fg_epsilon_daymax h)%float = true)
      rest /\
    premeta !! "epsilon_x0" = Some (PFloat (fg_epsilon_x0 g)) /\
    premeta !! "epsilon_x1" = Some (PFloat (fg_epsilon_x1 g)) /\
    premeta !! "epsilon_color" = Some (PFloat (fg_epsilon_color g)) /\
    premeta !! "epsilon_daymax" = Some (PFloat (fg_epsilon_daymax g)) /\
    premeta !! "x0" = Some (PFloat (-1)%float).
Proof.
  unfold fast_init. intros H.
  destruct (unique_item_float x1s) as [x1|]; [|discriminate H].
  destruct (unique_item_float colors) as [color|]; [|discriminate H].
  cbn [mbind result_bind] in H.
  destruct (unique_item_float (map fg_epsilon_x0 gen)) as [e0|] eqn:H0;
    [|discriminate H].
  destruct (unique_item_float (map fg_epsilon_x1 gen)) as [e1|] eqn:H1;
    [|discriminate H].
  destruct (unique_item_float (map fg_epsilon_color gen)) as [e2|] eqn:H2;
    [|discriminate H].
  destruct (unique_item_float (map fg_epsilon_daymax gen)) as [e3|] eqn:H3;
    [|discriminate H].
  cbn [mbind result_bind] in H. apply Ok_inj in H as <-.
  apply unique_item_float_inv in H0 as (r0 & E0 & F0).
  apply unique_item_float_inv in H1 as (r1 & E1 & F1).
  apply unique_item_float_inv in H2 as (r2 & E2 & F2).
  apply unique_item_float_inv in H3 as (r3 & E3 & F3).
  destruct gen as [|g rest]; [discriminate E0|].
  cbn [map] in E0, E1, E2, E3.
  injection E0 as <- <-. injection E1 as <- <-.
  injection E2 as <- <-. injection E3 as <- <-.
  exists g, rest. split; [reflexivity|]. split.
  - apply Forall_fmap in F0, F1, F2, F3.
    rewrite !Forall_forall in *. intros h Hh.
    specialize (F0 h Hh). specialize (F1 h Hh).
    specialize (F2 h Hh). specialize (F3 h Hh). cbn in *. auto.
  - repeat split; reflexivity.
Qed.

Lemma fast_init_uniform_witness :
  fast_init [0%float] [0%float] fast_gen = Ok fast_premeta_example /\
  exists g rest,
    fast_gen = g :: rest /\
    Forall (fun h =>
              (fg_epsilon_x0 g =? fg_epsilon_x0 h)%float = true /\
              (fg_epsilon_x1 g =? fg_epsilon_x1 h)%float = true /\
              (fg_epsilon_color g =? fg_epsilon_color h)%float = true /\
              (fg_epsilon_daymax g =? fg_epsilon_daymax h)%float = true)
      rest /\
    fast_premeta_example !! "epsilon_x0" = Some (PFloat (fg_epsilon_x0 g)) /\
    fast_premeta_example !! "epsilon_x1" = Some (PFloat (fg_epsilon_x1 g)) /\
    fast_premeta_example !! "epsilon_color"
    = Some (PFloat (fg_epsilon_color g)) /\
    fast_premeta_example !! "epsilon_daymax"
    = Some (PFloat (fg_epsilon_daymax g)) /\
    fast_premeta_example !! "x0" = Some (PFloat (-1)%float).
Proof.
  split; [vm_compute; reflexivity|].
  apply (fast_init_uniform [0%float] [0%float]). vm_compute. reflexivity.
Defined.

(** A shard without generation parameter makes [__init__] raise
    [ValueError], whatever the stretch and color arrays hold. *)
Theorem fast_init_empty_shard (x1s colors : list float) :
  fast_init x1s colors [] = Raise ValueError.
Proof.
  unfold fast_init.
  destruct (unique_item_float_cases x1s) as [[x ->]| ->]; [|reflexivity].
  destruct (unique_item_float_cases colors) as [[c ->]| ->]; reflexivity.
Qed.

Section FastMore.

Context {D : Type}.
Variable np_mean : list float -> float.
Variable lcFast : list Obs -> list FastGenPar -> list (@FastRow D).


Lemma concat_groups_skip (r : @FastRow D) (tab : list (@FastRow D))
  (ks : list (float * float)) :
  row_key r ∉ ks ->
  concat (map (fun k => filter (fun x => row_key x = k) (r :: tab)) ks)
  = concat (map (fun k => filter (fun x => row_key x = k) tab) ks).
Proof.
  induction ks as [|k ks IH]; intros Hr; [reflexivity|].
  apply not_elem_of_cons in Hr as [Hk Hks].
  cbn [map concat]. rewrite filter_cons, decide_False by exact Hk.
  now rewrite IH.
Qed.

Lemma concat_groups_cons (r : @FastRow D) (tab : list (@FastRow D))
  (ks : list (float * float)) :
  NoDup ks -> row_key r ∈ ks ->
  concat (map (fun k => filter (fun x => row_key x = k) (r :: tab)) ks)
  ≡ₚ r :: concat (map (fun k => filter (fun x => row_key x = k) tab) ks).
Proof.
  induction ks as [|k ks IH]; intros Hnd Hr.
  - now apply elem_of_nil in Hr.
  - apply NoDup_cons in Hnd as [Hk Hnd]. cbn [map concat].
    rewrite filter_cons. destruct (decide (row_key r = k)) as [Heq|Hne].
    + rewrite concat_groups_skip by (rewrite Heq; exact Hk). reflexivity.
    + apply elem_of_cons in Hr as [Hr|Hr]; [contradiction|].
      rewrite (IH Hnd Hr). symmetry. apply Permutation_middle.
Qed.

Lemma concat_groups_all (tab : list (@FastRow D)) (ks : list (float * float)) :
  NoDup ks -> (forall r, r ∈ tab -> row_key r ∈ ks) ->
  concat (map (fun k => filter (fun x => row_key x = k) tab) ks) ≡ₚ tab.
Proof.
  intros Hnd. induction tab as [|r tab IH]; intros Hin.
  - clear. induction ks as [|k ks IH]; [reflexivity|exact IH].
  - rewrite concat_groups_cons; [|exact Hnd|apply Hin; left].
    apply Permutation_cons; [reflexivity|]. apply IH.
    intros r' Hr'. apply Hin. now right.
Qed.

(** [transform] shares the rows of the combined result among the tables:
    together the tables hold each row once, and no table is empty. (pandas
    leaves rows with a NaN key out of every group; the statement is for a
    result without such rows.) *)
Theorem transform_partition (premeta : gmap string pyval)
  (tab : list (@FastRow D)) :
  Forall (fun r => (r.1.1 =? r.1.1)%float = true /\
                   (r.1.2 =? r.1.2)%float = true) tab ->
  concat (map rows (transform premeta tab)) ≡ₚ tab /\
  Forall (fun t => exists r, r ∈ rows t) (transform premeta tab).
Proof.
  intros _. destruct (group_keys_spec tab) as [Hnd Hkeys].
  unfold transform. split.
  - rewrite <- list_fmap_compose.
    apply (concat_groups_all tab (group_keys tab) Hnd).
    intros r Hr. apply Hkeys. eauto.
  - apply Forall_fmap, Forall_forall. intros k Hk. cbn.
    apply Hkeys in Hk as (r & Hr & Hk). exists r.
    now apply list_elem_of_filter.
Qed.

End FastMore.

Lemma transform_partition_witness :
  Forall (fun r : @FastRow nat =>
            (r.1.1 =? r.1.1)%float = true /\ (r.1.2 =? r.1.2)%float = true)
    fast_rows /\
  concat (map rows (transform fast_premeta_example fast_rows)) ≡ₚ fast_rows /\
  Forall (fun t : Table (@FastRow nat) => exists r, r ∈ rows t)
    (transform fast_premeta_example fast_rows).
Proof.
  assert (H : Forall (fun r : @FastRow nat =>
                        (r.1.1 =? r.1.1)%float = true /\
                        (r.1.2 =? r.1.2)%float = true) fast_rows).
  { repeat constructor. }
  split; [exact H|].
  exact (transform_partition fast_premeta_example fast_rows H).
Defined.

(** ** The worker of the spectral backend *)

Section SpectralWorkerFacts.

Context {R Spectrum GenPar : Type}.
Variable float_repr : float -> string.
Variable np_mean : list float -> float.
Variable log10 : float -> float.
Variable cutoff :
  list Obs -> float -> float -> float -> float -> float -> float -> list Obs.
Variable SN_flux : CosmoSN -> float -> Spectrum.
Variable calcFlux : Spectrum -> string -> float.
Variable photometry : CosmoSN -> list FluxRow -> list R.
Variable ptime : float.
Variable make_sn : GenPar -> CosmoSN.
Variable simuLCs_all : list Obs -> Z -> list GenPar -> result (list (Table R)).



End SpectralWorkerFacts.


(** ** Two examples *)

(** A shard of 21 generation parameters, one table each: the buffer is
    dumped once at 20 tables and once at the end. *)
Lemma simuLoop_spectral_witness :
  sn_fast engine_prepared = false /\
  mapM ((fun _ _ _ => Ok [table_two_rows])
          (season_mostly_u) (1 : Z)) (replicate 21 tt)
  = Ok (replicate 21 [table_two_rows]) /\
  simuLoop digits_repr (fun _ _ (_ : unit) => Ok [table_two_rows])
    (fun _ _ _ => Ok []) engine_prepared ∅ season_mostly_u 1
    (replicate 21 tt) 1
  = dump digits_repr engine_prepared ∅
      (concat (replicate 21 [table_two_rows])) 1 1 ∅.
Proof.
  split; [reflexivity|]. split; [reflexivity|].
  apply simuLoop_spectral; reflexivity.
Defined.

(** Two perturbations with one epsilon code share the storage index. *)
Lemma StorageIndex_same_witness :
  gp_epsilon_code gp_epsilon_x0_eighth
  = gp_epsilon_code gp_epsilon_x1_five_quarters /\
  StorageIndex digits_repr gp_epsilon_x0_eighth
  = StorageIndex digits_repr gp_epsilon_x1_five_quarters.
Proof.
  split; [vm_compute; reflexivity|].
  apply StorageIndex_same; vm_compute; reflexivity.
Defined.
